(* ===== verification/_CoqProject ===== *)
-Q . S2P
Prelude.v
JsString.v
Bookmark.v
Search.v
Realtime.v
Merge.v
Manager.v
Store.v
Sync.v
Render.v
Lifecycle.v
Session.v
Pages.v
Tabs.v
