(* ===== verification/Prelude.v ===== *)
(** * A verification library for the BookMarkManager web application

    ** The program
    A Next.js application over a hosted database.  The server pages
    (src/app/page.tsx, src/app/login/page.tsx, src/app/dashboard/page.tsx)
    check the session and redirect; the dashboard queries the user's
    bookmarks once (the snapshot) and renders the client component
    [BookmarkManager] (src/app/dashboard/bookmark-manager.tsx).  That
    component keeps the list in React state, opens one realtime channel
    filtered on [user_id] in a [useEffect] whose callback prepends INSERTed
    rows and filters out DELETEd ids, sends inserts and deletes to the
    store without touching the list (the channel reports them back), and
    filters the list by a case-insensitive search text.

    ** The files (in dependency order)
    - Prelude.v (this file): the [js_scope] notations [===]/[!==], the
      hint databases [bm] (resolve) and [bm_rw] (rewrite), the tactic
      [str_case], and lemmas on [List.filter] with a boolean callback
      (the shape of [Array.prototype.filter]) with its [Proper] instance
      for permutations, and [rtc_preserve], which carries a step
      invariant along runs.
    - JsString.v: [toLowerCase] and [includes]; [includes] is proved
      equivalent to the factor specification [substring].
    - Bookmark.v: [type Bookmark] as a record, [ids], [owned], and sample
      rows.
    - Search.v, [Module Search]: [filteredBookmarks] (lines 90-94).
    - Realtime.v, [Module Realtime]: the payload union and the
      [postgres_changes] callback [on_postgres_changes] (lines 42-48).
    - Merge.v, [Module Merge]: the specification's merge protocol as a
      keyed upsert/delete [merge] on a [gmap] from id to row, and the
      abstraction [to_collection] of a displayed list to that map.
    - Manager.v, [Module Manager]: the [useState] record [State], its
      setters, [handleAdd] and [handleDelete] split at their [await]
      ([_start] before, [_finish] after), [visible], [submit_enabled].
    - Store.v: the hosted table behind the interface [Class Backend]
      ([select] scoped by row-level security, [insert], scoped [delete],
      the [created_at] [stamps] of the rows) with the laws [BackendLaws] the sync proofs use, and the list
      store [ListStore] whose instance discharges them.  This part is
      modelled from the spec: the table, its policy and the client
      library are not in the repository.
    - Sync.v, [Module Sync]: one dashboard session as a step relation
      [step] on [Sys] (component state, store, channel joined or not,
      undelivered payloads in FIFO order, requests awaiting an answer,
      console/alert output, and a ghost flag [missed]).  Its rules are the
      user's actions, the store's answers, the channel's deliveries and
      the writes of other sessions, in any interleaving.  Proved against
      [Backend]/[BackendLaws] in a [Section]; concrete runs use
      [ListStore].
    - Render.v, [Module Render]: the component's JSX (lines 96-196) as
      data: input values, the submit button, the search value, the empty
      state, and per row its React key, link and delete argument.
    - Lifecycle.v, [Module Lifecycle]: the [useEffect] lifetime (lines
      30-55): commit with dependencies, cleanup with [removeChannel],
      unmount.
    - Session.v, [Module Session]: Lifecycle and Sync together.  A
      render commits the effect with the client object [createClient()]
      returned; when the dependencies changed the old channel is removed
      ([teardown]: no longer subscribed, undelivered changes dropped) and
      a new one joins later.  The client objects are a parameter.
    - Pages.v, [Module Pages]: the three server pages, redirect-following
      [navigate], and the landing page's feature cards [feature_cards]
      (what the application promises).
    - Tabs.v, [Module Tabs]: two tabs of the dashboard on one store.  A
      write acknowledged to one tab is, at the same step, a write of
      another session for the other tab ([l_add], [l_delete]); the other
      steps of either tab interleave freely ([tstep]).

    ** What is proved
    - Sync: the invariant [synced] (replaying the undelivered payloads on
      the displayed list gives the user's rows of the store) in every
      reachable state without a lost change; from every such state
      draining the channel reaches the store's rows of the user (eventual
      consistency); [loading] is set exactly while an insert is pending;
      a submitted row comes back through the channel into the list (read
      your writes); at every step the list holds only the user's rows.
      A concrete run shows the gap between the server snapshot and the
      client's subscription: a row added in between is never shown.
      When the store stamps each new row at least as late as those it
      holds, the list at quiescence is ordered newest first like the
      snapshot, although the INSERT branch only prepends.  Two deletes
      of one id both end, once delivered, with no alert and the id gone.
    - Realtime: DELETE is idempotent and a no-op on absent ids; payloads
      on distinct keys commute up to permutation; an INSERT of a fresh id
      keeps ids unique; but a repeated INSERT duplicates a row and a
      foreign INSERT is accepted (the callback checks neither).
    - Merge: for owned payloads the callback refines the keyed merge of
      the specification (a sequence of payloads maps to the fold of
      [merge]), and payloads about distinct ids give one collection in any
      delivery order.  For a list with unique ids the abstraction is
      faithful (same rows, same size).
    - Search: membership in the result is exactly the case-insensitive
      factor test on title or url; the result ignores the case of the
      text, is the whole list for an empty text, only narrows when the
      text is refined, and is an order-preserving sub-list.
    - Manager: each handler on every branch (validation guard, request
      sent, inputs cleared on success, alert on failure, [loading]
      reset, list untouched).
    - Render: the empty state matches an empty filtered list, and
      otherwise the items correspond one to one to the shown bookmarks,
      each keyed by its id, showing its title and url, linking to its url
      with noopener and deleting its own id; keys are
      unique at quiescence; the button is disabled exactly while an insert
      is pending.
    - Session: the Sync invariant and "subscribed means exactly one
      channel, filtered on the user" hold together over renders with any
      client objects; when every render gets the same client object, each
      session run is a Sync run (so all Sync theorems apply); when a
      render gets a new one, a change still undelivered is lost for good.
    - Tabs: each tab's side of a two-tab run is a Sync run, both tabs see
      one store, and each shows only its user's rows; a row added in one
      tab of a user appears in the other once its channel delivers (the
      "Real-time Sync" card); two tabs deleting one row both end without
      an alert and without the row.
    - Lifecycle: at most one channel is registered, filtered on the
      current user; unmount releases it; re-rendering with unchanged
      dependencies does not resubscribe; no more channels are created
      than renders, exactly one over a session with fixed dependencies.
    - Pages: two page loads always reach a rendered page (no redirect
      loop) and which page that is for each path and session.

    ** Choices and limits
    - Strings are Rocq strings, one 8-bit character per UTF-16 code unit,
      so only code units below 256 (Latin-1) are representable; on them
      [toLowerCase] is exact ('A'..'Z' and U+00C0..U+00DE but U+00D7).
    - Fuel: [navigate] takes fuel; two loads suffice, and the theorem
      holds for every fuel from 2 up.  No other definition needs fuel:
      the handlers are total functions and the system is a relation.
    - The store keeps rows newest first, as the
      [order("created_at", { ascending: false })] of the snapshot
      returns them; ids are chosen by the [step] rule, fresh in the
      store.  The [created_at] stamp of a new row is chosen by the rule
      too, under the premise [clock_ok] that it is not older than any row
      of the store: a clock monotone in commit order.  Postgres gives no
      such guarantee to concurrent transactions, which is why the
      ordering theorem is stated under this premise (see the findings).
    - The channel is modelled as FIFO and exactly-once after it joins;
      the theorems on the callback show what duplicate delivery would do.
    - Not modelled: styling, icons, static headings and the footer (no
      state and no promise), the icon of each [FeatureCard], the login
      page's markup around the login button, the login button itself and
      the Supabase client factories (imported from files not among the
      sources), OAuth and session cookies, and the database's policies and
      clock beyond the laws of [BackendLaws] and the premise [clock_ok].
      Whether [createClient()] returns one object at every render is a
      parameter of Lifecycle and Session, as its code is not in the
      sources.  Beyond these, nothing of the sources is left to model.

    ** Further work, in order
    - A store clock that is not monotone in commit order, and the
      display order it produces.
    - More than two tabs, and tabs whose channels drop changes: the
      two-tab results assume both tabs joined without loss. *)

From stdpp Require Import base list strings decidable relations.
From Stdlib Require Import String Sorted.

(** ** Notations: JavaScript's strict (in)equality on strings *)

Declare Scope js_scope.
Delimit Scope js_scope with js.
Notation "a === b" := (String.eqb a b) (at level 70, no associativity) : js_scope.
Notation "a !== b" := (negb (String.eqb a b)) (at level 70, no associativity) : js_scope.
Open Scope js_scope.

Create HintDb bm discriminated.
Create Rewrite HintDb bm_rw.

(** ** Generic lemmas on [List.filter] with a boolean callback, the shape
    of [Array.prototype.filter] *)

Section filter_lemmas.
Context {A : Type}.
Implicit Types (f g : A -> bool) (l : list A).

Lemma filter_idem f l : List.filter f (List.filter f l) = List.filter f l.
Proof.
  induction l as [|x l IH]; simpl; [done|].
  destruct (f x) eqn:E; simpl; [rewrite E|]; simpl; rewrite ?E, IH; done.
Qed.

Lemma filter_comm f g l :
  List.filter f (List.filter g l) = List.filter g (List.filter f l).
Proof.
  induction l as [|x l IH]; simpl; [done|].
  destruct (f x) eqn:Ef, (g x) eqn:Eg; simpl; rewrite ?Ef, ?Eg, IH; done.
Qed.

Lemma filter_all_true f l :
  (forall x, In x l -> f x = true) -> List.filter f l = l.
Proof.
  intros H. induction l as [|x l IH]; simpl; [done|].
  rewrite H by (left; done). f_equal. apply IH. intros y Hy. apply H. by right.
Qed.

Lemma filter_sublist f l : sublist (List.filter f l) l.
Proof.
  induction l as [|x l IH]; simpl; [constructor|].
  destruct (f x); constructor; done.
Qed.

Lemma filter_mono f g l :
  (forall x, f x = true -> g x = true) ->
  sublist (List.filter f l) (List.filter g l).
Proof.
  intros H. induction l as [|x l IH]; simpl; [constructor|].
  destruct (f x) eqn:Ef; [rewrite (H x Ef); constructor; done|].
  destruct (g x); [constructor; done|done].
Qed.

Lemma filter_Permutation f l l' :
  l ≡ₚ l' -> List.filter f l ≡ₚ List.filter f l'.
Proof.
  induction 1; simpl; try done.
  - destruct (f x); [constructor|]; done.
  - destruct (f x), (f y); try constructor; done.
  - by etrans.
Qed.
Lemma filter_filter f g l :
  List.filter f (List.filter g l) = List.filter (fun x => g x && f x) l.
Proof.
  induction l as [|x l IH]; simpl; [done|].
  destruct (g x); simpl; [destruct (f x); simpl|]; by rewrite IH.
Qed.
Lemma sublist_map {B} (h : A -> B) l l' :
  sublist l l' -> sublist (map h l) (map h l').
Proof. induction 1; simpl; by constructor. Qed.
Lemma StronglySorted_filter (R : A -> A -> Prop) f l :
  StronglySorted R l -> StronglySorted R (List.filter f l).
Proof.
  induction 1 as [|x l Hl IH Hx]; simpl; [constructor|].
  destruct (f x); [|done]. constructor; [done|].
  apply List.Forall_forall. intros y Hy. apply List.filter_In in Hy as [Hy _].
  by apply (proj1 (List.Forall_forall _ _) Hx).
Qed.
End filter_lemmas.

#[export] Instance filter_Proper {A} (f : A -> bool) :
  Proper ((≡ₚ) ==> (≡ₚ)) (List.filter f).
Proof. intros l l' H. by apply filter_Permutation. Qed.

#[export] Hint Rewrite @filter_idem : bm_rw.
#[export] Hint Resolve filter_sublist filter_mono : bm.

(** ** Invariants of a transition relation *)

(** A property kept by every step is kept along every run. *)
Lemma rtc_preserve {A} (R : relation A) (P : A -> Prop) :
  (forall x y, R x y -> P x -> P y) -> forall x y, rtc R x y -> P x -> P y.
Proof. intros Hstep x y Hr. induction Hr as [|x y z Hxy _ IH]; eauto. Qed.

(** ** String equality *)

Lemma str_eqb_sym (a b : string) : (a === b) = (b === a).
Proof. destruct (String.eqb_spec a b), (String.eqb_spec b a); congruence. Qed.

Lemma str_eqb_false (a b : string) : a ≠ b -> (a === b) = false.
Proof. by intros H; apply String.eqb_neq. Qed.

#[export] Hint Rewrite String.eqb_refl : bm_rw.

(** [str_case] splits on every string comparison of the goal. *)
Ltac str_case :=
  repeat match goal with
  | |- context [String.eqb ?a ?b] => destruct (String.eqb_spec a b); subst
  | H : context [String.eqb ?a ?b] |- _ => destruct (String.eqb_spec a b); subst
  end.
