(* ===== verification/JsString.v ===== *)
(** * JavaScript string operations used by the search filter

    [String.prototype.toLowerCase] and [String.prototype.includes], as
    called by [filteredBookmarks] in src/app/dashboard/bookmark-manager.tsx
    (lines 90-94).  Strings are Rocq [string]s, one [ascii] per UTF-16
    code unit, so they cover the code units below 256 (Latin-1); on them
    [toLowerCase] is JavaScript's: 'A'..'Z' and U+00C0..U+00DE except
    U+00D7 move up by 32, everything else is kept.  [includes] is the scanning routine, proved
    equivalent to the reference specification [substring]. *)

From stdpp Require Import base list strings decidable.
From Stdlib Require Import String Ascii.
From S2P Require Import Prelude.

Local Open Scope string_scope.

(** ** [toLowerCase] *)

Definition lower_char (c : ascii) : ascii :=
  let n := nat_of_ascii c in
  if (Nat.leb 65 n && Nat.leb n 90) || (Nat.leb 192 n && Nat.leb n 222 && negb (Nat.eqb n 215))
  then ascii_of_nat (n + 32) else c.

Fixpoint toLowerCase (s : string) : string :=
  match s with
  | EmptyString => EmptyString
  | String c s' => String (lower_char c) (toLowerCase s')
  end.

(** ** [includes]: does [p] occur in [s] at some position? *)

Fixpoint startsWith (s p : string) {struct p} : bool :=
  match p with
  | EmptyString => true
  | String c p' =>
      match s with
      | String d s' => Ascii.eqb c d && startsWith s' p'
      | EmptyString => false
      end
  end.

Fixpoint includes (s p : string) : bool :=
  startsWith s p ||
  match s with
  | EmptyString => false
  | String _ s' => includes s' p
  end.

(** The reference specification: [p] is a factor of [s]. *)
Definition substring (p s : string) : Prop :=
  exists pre post, s = pre ++ p ++ post.

(** ** Lemmas *)

Lemma lower_char_idem c : lower_char (lower_char c) = lower_char c.
Proof. destruct c as [[] [] [] [] [] [] [] []]; reflexivity. Qed.

Lemma toLowerCase_idem s : toLowerCase (toLowerCase s) = toLowerCase s.
Proof. induction s as [|c s IH]; simpl; [done|]. by rewrite lower_char_idem, IH. Qed.

Lemma toLowerCase_app s t : toLowerCase (s ++ t) = toLowerCase s ++ toLowerCase t.
Proof. induction s as [|c s IH]; simpl; [done|]. by rewrite IH. Qed.

Lemma toLowerCase_length s : String.length (toLowerCase s) = String.length s.
Proof. induction s; simpl; auto. Qed.

Lemma startsWith_spec s p : startsWith s p = true <-> exists post, s = p ++ post.
Proof.
  revert s. induction p as [|c p IH]; intros s; simpl.
  - split; [intros _; by exists s|by intros _].
  - destruct s as [|d s]; simpl.
    + split; [done|]. by intros [post ?].
    + rewrite andb_true_iff, IH. split.
      * intros [Hc [post ->]]. apply Ascii.eqb_eq in Hc as ->. by exists post.
      * intros [post Heq]. injection Heq as -> ->. split; [apply Ascii.eqb_refl|eauto].
Qed.

(** [includes] implements the specification [substring]. *)
Lemma includes_substring s p : includes s p = true <-> substring p s.
Proof.
  unfold substring. induction s as [|d s IH]; simpl.
  - rewrite orb_false_r, startsWith_spec. split.
    + intros [post ->]. by exists "", post.
    + intros [[|c pre] [post Heq]]; [by exists post|done].
  - rewrite orb_true_iff, startsWith_spec, IH. split.
    + intros [[post Heq] | [pre [post ->]]].
      * rewrite Heq. by exists "", post.
      * by exists (String d pre), post.
    + intros [[|c pre] [post Heq]]; simpl in Heq.
      * left. by exists post.
      * injection Heq as -> ->. right. eauto.
Qed.

Lemma includes_empty s : includes s "" = true.
Proof. destruct s; reflexivity. Qed.

(** stdpp makes [String.append] opaque to [simpl]; its two equations: *)
Lemma str_app_nil s : "" ++ s = s.
Proof. reflexivity. Qed.

Lemma str_app_cons c s t : String c s ++ t = String c (s ++ t).
Proof. reflexivity. Qed.

Lemma str_app_assoc (a b c : string) : (a ++ b) ++ c = a ++ (b ++ c).
Proof. induction a as [|x a IH]; rewrite ?str_app_nil, ?str_app_cons; congruence. Qed.

Lemma substring_trans p q s : substring p q -> substring q s -> substring p s.
Proof.
  intros [a [b ->]] [c [d ->]]. exists (c ++ a), (b ++ d).
  by rewrite !str_app_assoc.
Qed.

Lemma substring_lower p s :
  substring p s -> substring (toLowerCase p) (toLowerCase s).
Proof.
  intros [a [b ->]]. exists (toLowerCase a), (toLowerCase b).
  by rewrite !toLowerCase_app.
Qed.

#[export] Hint Rewrite toLowerCase_idem toLowerCase_app : bm_rw.
#[export] Hint Resolve substring_trans substring_lower : bm.
