(* ===== verification/Bookmark.v ===== *)
(** * The bookmark record

    [type Bookmark] of src/app/dashboard/bookmark-manager.tsx (lines 7-13):
    a row of the [bookmarks] table as the client receives it.  Every field
    is a string, as in the source.  The projections [ids] and the ownership
    test [owned] are shared by the search, realtime and store files. *)

From stdpp Require Import base list strings decidable.
From Stdlib Require Import String.
From S2P Require Import Prelude.

Record Bookmark := mkBookmark {
  id : string;
  created_at : string;
  user_id : string;
  url : string;
  title : string;
}.

#[export] Instance Bookmark_eq_dec : EqDecision Bookmark.
Proof. solve_decision. Defined.

(** The identifiers of a list of bookmarks, in order. *)
Definition ids (l : list Bookmark) : list string := map id l.

(** A row belongs to the user [uid] when its [user_id] is [uid]
    (the realtime filter [user_id=eq.${userId}] of line 40). *)
Definition owned (uid : string) (b : Bookmark) : bool := user_id b === uid.

(** The bookmark list has no duplicate [id]. *)
Definition unique_ids (l : list Bookmark) : Prop := NoDup (ids l).

(** Every row of the list belongs to [uid]. *)
Definition all_owned (uid : string) (l : list Bookmark) : Prop :=
  Forall (fun b => owned uid b = true) l.



Lemma in_ids b l : In b l -> In (id b) (ids l).
Proof. apply in_map. Qed.

Lemma in_ids_iff i l : In i (ids l) <-> exists b, id b = i /\ In b l.
Proof. unfold ids. rewrite in_map_iff. done. Qed.

Lemma unique_ids_filter f l : unique_ids l -> unique_ids (List.filter f l).
Proof.
  unfold unique_ids, ids. induction l as [|b l IH]; simpl; [done|].
  intros [Hn Hl]%list.NoDup_cons. destruct (f b); simpl; [|auto].
  constructor; [|auto]. rewrite list_elem_of_In in Hn |- *. intros Hin. apply Hn.
  apply in_map_iff in Hin as [b' [Heq Hb']]. apply List.filter_In in Hb' as [Hb' _].
  rewrite <- Heq. by apply in_map.
Qed.

Lemma all_owned_filter uid f l : all_owned uid l -> all_owned uid (List.filter f l).
Proof.
  unfold all_owned. rewrite !Forall_forall. intros H b Hb.
  apply List.filter_In in Hb as [Hb _]. auto.
Qed.

#[export] Hint Resolve unique_ids_filter all_owned_filter in_ids : bm.

(** ** Sample rows, used by the concrete runs of the other files *)
Module Samples.
Local Open Scope string_scope.
Definition google : Bookmark :=
  mkBookmark "1" "2024-05-01T10:00:00Z" "u1" "https://google.com" "Google".
Definition bing : Bookmark :=
  mkBookmark "2" "2024-05-01T10:05:00Z" "u1" "https://bing.com" "Bing".
Definition foreign : Bookmark :=
  mkBookmark "3" "2024-05-01T10:06:00Z" "u2" "https://example.org" "Example".
End Samples.
