(* ===== verification/Search.v ===== *)
(** * The search filter of the bookmark list

    [filteredBookmarks] of src/app/dashboard/bookmark-manager.tsx
    (lines 90-94): the bookmarks whose lower-cased title or url contains
    the lower-cased filter text, in the order of the [bookmarks] state.
    The theorems characterise the result against the substring
    specification, and show that it ignores case, shows everything for an
    empty filter and only narrows as the filter text grows. *)

From stdpp Require Import base list strings decidable.
From Stdlib Require Import String.
From S2P Require Import Prelude JsString Bookmark.

Local Open Scope string_scope.

Module Search.

(** The callback of [bookmarks.filter] (lines 91-93). *)
Definition matches (filter : string) (b : Bookmark) : bool :=
  includes (toLowerCase (title b)) (toLowerCase filter) ||
  includes (toLowerCase (url b)) (toLowerCase filter).

(** [const filteredBookmarks = bookmarks.filter(...)] (lines 90-94). *)
Definition filteredBookmarks (bookmarks : list Bookmark) (filter : string)
  : list Bookmark :=
  List.filter (matches filter) bookmarks.

(** The specification of a match: the lower-cased filter is a factor of
    the lower-cased title or url. *)
Definition ci_match (filter : string) (b : Bookmark) : Prop :=
  substring (toLowerCase filter) (toLowerCase (title b)) \/
  substring (toLowerCase filter) (toLowerCase (url b)).

Lemma matches_spec f b : matches f b = true <-> ci_match f b.
Proof. unfold matches, ci_match. by rewrite orb_true_iff, !includes_substring. Qed.

Lemma matches_lower f b : matches (toLowerCase f) b = matches f b.
Proof. unfold matches. by rewrite toLowerCase_idem. Qed.

Lemma matches_narrow f g b :
  substring (toLowerCase f) (toLowerCase g) -> matches g b = true -> matches f b = true.
Proof. rewrite !matches_spec. unfold ci_match. intros H [?|?]; eauto with bm. Qed.

(** ** Properties of [filteredBookmarks] *)

(** C10: a bookmark is shown exactly when it is in the list and its title
    or url contains the filter text, ignoring case. *)
Theorem filteredBookmarks_spec bs f b :
  In b (filteredBookmarks bs f) <-> In b bs /\ ci_match f b.
Proof. unfold filteredBookmarks. by rewrite List.filter_In, matches_spec. Qed.

(** An empty search box shows the whole list, in its order. *)
Theorem filteredBookmarks_empty bs : filteredBookmarks bs "" = bs.
Proof.
  apply filter_all_true. intros b _. unfold matches. simpl.
  by rewrite includes_empty.
Qed.

(** C11: The filter ignores the case of the search text. *)
Theorem filteredBookmarks_case_insensitive bs f :
  filteredBookmarks bs (toLowerCase f) = filteredBookmarks bs f.
Proof. unfold filteredBookmarks. apply filter_ext_in. intros b _. apply matches_lower. Qed.

(** C13: Refining the search text (the old text occurs in the new one, ignoring
    case) only removes bookmarks from the result, keeping their order. *)
Theorem filteredBookmarks_narrowing bs f g :
  substring (toLowerCase f) (toLowerCase g) ->
  sublist (filteredBookmarks bs g) (filteredBookmarks bs f).
Proof. intros H. apply filter_mono. intros b. by apply matches_narrow. Qed.

(** The result is an order-preserving sub-list of the state, and
    filtering twice with the same text changes nothing. *)
Theorem filteredBookmarks_sublist_idem bs f :
  sublist (filteredBookmarks bs f) bs /\
  filteredBookmarks (filteredBookmarks bs f) f = filteredBookmarks bs f.
Proof. split; [apply filter_sublist|apply filter_idem]. Qed.

(** The result is never longer than the list, and it is exactly as
    long only when every bookmark matches (then it is the whole list). *)
Theorem filteredBookmarks_length bs f :
  List.length (filteredBookmarks bs f) <= List.length bs /\
  (List.length (filteredBookmarks bs f) = List.length bs -> filteredBookmarks bs f = bs).
Proof.
  unfold filteredBookmarks. split; [apply List.filter_length_le|].
  intros Hl. apply filter_all_true. intros b Hb.
  apply (proj1 (forallb_forall _ _) (List.filter_length_forallb _ _ Hl)), Hb.
Qed.

(** ** Concrete runs and witnesses *)

Import Samples.

(** The search example of the spec: ["go"] keeps Google and drops Bing,
    whatever the case of the text. *)
Example search_go : filteredBookmarks [google; bing] "go" = [google].
Proof. vm_compute. reflexivity. Qed.

Example search_GO : filteredBookmarks [google; bing] "GO" = [google].
Proof. vm_compute. reflexivity. Qed.

Lemma filteredBookmarks_narrowing_witness :
  substring (toLowerCase "go") (toLowerCase "Goo") /\
  sublist (filteredBookmarks [google; bing] "Goo") (filteredBookmarks [google; bing] "go").
Proof.
  assert (substring (toLowerCase "go") (toLowerCase "Goo")) as Hs
    by (exists ""%string, "o"%string; reflexivity).
  split; [exact Hs|]. apply (filteredBookmarks_narrowing _ _ _ Hs).
Defined.

End Search.
