(* ===== verification/Realtime.v ===== *)
(** * The realtime change handler

    The callback registered with [.on("postgres_changes", ...)] in the
    [useEffect] of src/app/dashboard/bookmark-manager.tsx (lines 42-48).
    A change payload is a tagged union on [eventType]; the callback passes
    an updater to [setBookmarks]: INSERT prepends [payload.new], DELETE
    keeps the rows whose [id] differs from [payload.old.id], and any other
    event type leaves the list alone.

    The theorems state what the merge guarantees (idempotent deletes,
    commutation of events on distinct keys up to permutation, uniqueness
    and ownership kept when the inserted row is fresh and owned) and what
    it does not: a repeated INSERT duplicates the row, and a foreign
    INSERT is accepted, because the callback checks neither. *)

From stdpp Require Import base list strings decidable.
From Stdlib Require Import String.
From S2P Require Import Prelude Bookmark.

Module Realtime.

(** [payload]: [eventType] with the fields the callback reads.  [old]
    carries only the primary key on DELETE (the table's default replica
    identity), hence [old_id]. *)
Inductive Payload :=
| INSERT (new : Bookmark)
| UPDATE (new : Bookmark) (old_id : string)
| DELETE (old_id : string).

#[export] Instance Payload_eq_dec : EqDecision Payload.
Proof. solve_decision. Defined.

(** The updater passed to [setBookmarks] by the callback (lines 43-47). *)
Definition on_postgres_changes (payload : Payload) (prev : list Bookmark)
  : list Bookmark :=
  match payload with
  | INSERT new => new :: prev
  | DELETE old_id => List.filter (fun b => id b !== old_id) prev
  | UPDATE _ _ => prev
  end.

(** React applies queued updaters in order: the list after a sequence of
    delivered payloads. *)
Definition apply_payloads (ps : list Payload) (l : list Bookmark) : list Bookmark :=
  fold_left (fun acc p => on_postgres_changes p acc) ps l.

(** The key a payload is about. *)
Definition payload_key (p : Payload) : string :=
  match p with
  | INSERT n => id n
  | UPDATE n _ => id n
  | DELETE i => i
  end.

(** ** Helper lemmas *)

Lemma apply_payloads_app ps qs l :
  apply_payloads (ps ++ qs) l = apply_payloads qs (apply_payloads ps l).
Proof. unfold apply_payloads. apply fold_left_app. Qed.





Lemma in_delete b i l :
  In b (on_postgres_changes (DELETE i) l) <-> In b l /\ id b <> i.
Proof.
  simpl. rewrite List.filter_In, negb_true_iff, String.eqb_neq. done.
Qed.

Lemma delete_noop_existsb i l :
  existsb (fun b => id b === i) l = false -> on_postgres_changes (DELETE i) l = l.
Proof.
  intros Hx. apply filter_all_true. intros b Hb. apply negb_true_iff.
  destruct (id b === i) eqn:E; [|done].
  rewrite <- Hx. symmetry. apply existsb_exists. eauto.
Qed.

#[export] Instance on_postgres_changes_Proper p :
  Proper ((≡ₚ) ==> (≡ₚ)) (on_postgres_changes p).
Proof. intros l l' H. destruct p; simpl; [by constructor|done|by rewrite H]. Qed.

(** A payload is acceptable for [uid] when it inserts nothing foreign. *)
Definition payload_owned (uid : string) (p : Payload) : Prop :=
  forall n, p = INSERT n -> owned uid n = true.

Lemma handler_keeps_owned uid p l :
  all_owned uid l -> payload_owned uid p -> all_owned uid (on_postgres_changes p l).
Proof.
  unfold all_owned, payload_owned. intros Hl Hp. destruct p as [n|n i|i]; simpl.
  - constructor; [by apply Hp|done].
  - done.
  - by apply all_owned_filter.
Qed.

#[export] Hint Rewrite apply_payloads_app : bm_rw.

(** ** Deletes *)

(** Applying the same DELETE twice is the same as applying it once. *)
Theorem delete_idempotent i l :
  on_postgres_changes (DELETE i) (on_postgres_changes (DELETE i) l) =
  on_postgres_changes (DELETE i) l.
Proof. apply filter_idem. Qed.

(** C5: a DELETE for an id that is not in the list is a no-op. *)
Theorem delete_absent_noop i l :
  ~ In i (ids l) -> on_postgres_changes (DELETE i) l = l.
Proof.
  intros Hi. apply delete_noop_existsb, not_true_iff_false.
  intros [b [Hb Hid]]%existsb_exists. apply String.eqb_eq in Hid as <-.
  by apply Hi, in_ids.
Qed.

(** ** Inserts *)

(** C9: an INSERT of a row whose id is not yet in the list keeps the ids
    unique. *)
Theorem insert_fresh_unique n l :
  unique_ids l -> ~ In (id n) (ids l) ->
  unique_ids (on_postgres_changes (INSERT n) l).
Proof.
  unfold unique_ids. intros Hl Hn. simpl. constructor; [|done].
  by rewrite list_elem_of_In.
Qed.

(** C6: the INSERT branch is not idempotent: delivering the same INSERT
    twice (an at-least-once transport) leaves two rows with the same id. *)
Theorem insert_twice_duplicates n l :
  ~ unique_ids (on_postgres_changes (INSERT n) (on_postgres_changes (INSERT n) l)).
Proof. unfold unique_ids. simpl. intros [Hn _]%list.NoDup_cons. apply Hn. left. Qed.

(** ** Ownership *)

(** C7: the callback never checks [user_id]: the list stays owned by [uid]
    exactly when every inserted row is owned by [uid]. *)
Theorem handler_ownership uid p l :
  all_owned uid l ->
  all_owned uid (on_postgres_changes p l) <->
  (forall n, p = INSERT n -> owned uid n = true).
Proof.
  intros Hl. split; [|by apply handler_keeps_owned].
  unfold all_owned. destruct p as [n|n i|i]; simpl; [|by intros|by intros].
  rewrite Forall_cons_iff. intros [Hn _] m [= <-]. done.
Qed.

(** ** Order independence *)

(** Two payloads about different keys have the same effect in either
    order, up to the order of the displayed rows. *)
Theorem payloads_commute p q l :
  payload_key p <> payload_key q ->
  on_postgres_changes p (on_postgres_changes q l) ≡ₚ
  on_postgres_changes q (on_postgres_changes p l).
Proof.
  intros Hk. destruct p as [n|n i|i], q as [m|m j|j]; simpl in *; try done.
  - by constructor.
  - rewrite (str_eqb_false (id n) j) by done. done.
  - rewrite (str_eqb_false (id m) i) by congruence. done.
  - by rewrite filter_comm.
Qed.

(** ** Witnesses *)

Import Samples.

Lemma handler_ownership_witness :
  all_owned "u1" [google] /\
  (all_owned "u1" (on_postgres_changes (INSERT bing) [google]) <->
   (forall n, INSERT bing = INSERT n -> owned "u1" n = true)).
Proof.
  assert (all_owned "u1" [google]) as Hg by (repeat constructor).
  split; [exact Hg|]. apply (handler_ownership "u1" (INSERT bing) [google] Hg).
Defined.

Lemma delete_absent_noop_witness :
  ~ In "9"%string (ids [google; bing]) /\
  on_postgres_changes (DELETE "9") [google; bing] = [google; bing].
Proof.
  assert (~ In "9"%string (ids [google; bing])) as Hn by (vm_compute; intuition congruence).
  split; [exact Hn|]. apply (delete_absent_noop "9" [google; bing] Hn).
Defined.

Lemma insert_fresh_unique_witness :
  unique_ids [google] /\ ~ In (id bing) (ids [google]) /\
  unique_ids (on_postgres_changes (INSERT bing) [google]).
Proof.
  assert (unique_ids [google]) as Hu by apply NoDup_singleton.
  assert (~ In (id bing) (ids [google])) as Hn by (vm_compute; intuition congruence).
  split_and!; [exact Hu|exact Hn|]. apply (insert_fresh_unique bing [google] Hu Hn).
Defined.



End Realtime.
