(* ===== verification/Merge.v ===== *)
(** * The merge protocol and its refinement by the realtime handler

    The specification describes the merge of change events as a keyed,
    per-id idempotent upsert/delete on a collection: an owned [Created]
    record is written under its [id], a [Deleted] id is removed, and events
    of another owner are ignored.  [Merge.merge] states that contract on a
    [gmap] keyed by [id].  The handler of
    src/app/dashboard/bookmark-manager.tsx (lines 42-47, modelled by
    [Realtime.on_postgres_changes]) works on a list instead.  [to_collection]
    abstracts the list to the map: the first row with a given [id] wins,
    which is the row the list shows on top.  The theorems show:
    - each delivered payload refines one merge step, and a sequence
      refines the fold of the merge;
    - on the abstraction the handler is idempotent, although the list
      itself can grow a duplicate (see [Realtime.insert_twice_duplicates]);
    - payloads about pairwise distinct keys give the same collection in
      any delivery order;
    - for a list without duplicate ids the abstraction loses nothing. *)

From stdpp Require Import base list strings gmap.
From Stdlib Require Import String.
From S2P Require Import Prelude Bookmark Realtime.

Module Merge.
Import Realtime.

(** The abstract collection of the specification, keyed by [id]. *)
Abbreviation Collection := (gmap string Bookmark).

(** One step of the merge protocol.  The specification knows only
    [Created] and [Deleted] events; an [UPDATE] leaves the collection as it
    is, as the handler does. *)
Definition merge (uid : string) (p : Payload) (c : Collection) : Collection :=
  match p with
  | INSERT n => if owned uid n then <[id n := n]> c else c
  | DELETE i => delete i c
  | UPDATE _ _ => c
  end.

Definition merge_all (uid : string) (ps : list Payload) (c : Collection)
  : Collection :=
  fold_left (fun c p => merge uid p c) ps c.

(** The abstraction of the displayed list: each row under its [id]. *)
Definition to_collection (l : list Bookmark) : Collection :=
  list_to_map (map (fun b => (id b, b)) l).

(** ** Helper lemmas *)

Lemma to_collection_cons b l :
  to_collection (b :: l) = <[id b := b]> (to_collection l).
Proof. reflexivity. Qed.

Lemma to_collection_delete i l :
  to_collection (List.filter (fun b => id b !== i) l) = delete i (to_collection l).
Proof.
  induction l as [|b l IH].
  { symmetry. apply delete_empty. }
  simpl. rewrite to_collection_cons.
  destruct (String.eqb_spec (id b) i) as [->|Hne]; simpl.
  - by rewrite IH, delete_insert_eq.
  - by rewrite to_collection_cons, IH, delete_insert_ne.
Qed.

Lemma handler_refines uid p l :
  payload_owned uid p ->
  to_collection (on_postgres_changes p l) = merge uid p (to_collection l).
Proof.
  intros Hown. destruct p as [n|n i|i]; simpl; [|done|apply to_collection_delete].
  by rewrite (Hown n eq_refl).
Qed.



Lemma merge_comm uid p q c :
  payload_key p <> payload_key q ->
  merge uid p (merge uid q c) = merge uid q (merge uid p c).
Proof.
  intros Hk. destruct p as [n|n i|i], q as [m|m j|j]; simpl in *; try done;
    repeat case_match; try done;
    first [ by apply insert_insert_ne | apply delete_delete
          | by apply delete_insert_ne
          | symmetry; apply delete_insert_ne; congruence ].
Qed.

Lemma merge_all_cons uid p ps c :
  merge_all uid (p :: ps) c = merge_all uid ps (merge uid p c).
Proof. reflexivity. Qed.

Lemma merge_all_perm uid ps qs c :
  ps ≡ₚ qs -> NoDup (map payload_key ps) ->
  merge_all uid ps c = merge_all uid qs c.
Proof.
  intros Hp. revert c. induction Hp as [|p ps qs Hp IH|p q ps|ps qs rs H1 IH1 H2 IH2];
    intros c Hnd; cbn [map] in Hnd; try done.
  - apply NoDup_cons in Hnd as [_ Hnd]. rewrite !merge_all_cons. by apply IH.
  - apply NoDup_cons in Hnd as [Hq _]. rewrite !merge_all_cons, merge_comm; [done|].
    intros Hk. apply Hq. rewrite Hk. by left.
  - rewrite IH1 by done. apply IH2. by rewrite <- (Permutation_map payload_key H1).
Qed.

Lemma pairs_fst l : (map (fun b => (id b, b)) l).*1 = ids l.
Proof. induction l as [|b l IH]; [done|]. simpl. f_equal. exact IH. Qed.

Lemma to_collection_lookup_In l i b :
  unique_ids l -> to_collection l !! i = Some b <-> In b l /\ id b = i.
Proof.
  intros Hu. unfold to_collection. rewrite <- elem_of_list_to_map.
  - rewrite list_elem_of_In, in_map_iff. split.
    + by intros (b' & [= <- <-] & Hb).
    + intros [Hb <-]. by exists b.
  - by rewrite pairs_fst.
Qed.

(** The abstraction loses nothing on a list without duplicate ids: a row
    is in the collection under [i] exactly when the list holds it with id
    [i], and the collection has as many entries as the list has rows. *)
Lemma to_collection_faithful l i b :
  unique_ids l ->
  (to_collection l !! i = Some b <-> In b l /\ id b = i) /\
  size (to_collection l) = List.length l.
Proof.
  intros Hu. split; [by apply to_collection_lookup_In|].
  unfold to_collection. rewrite <- (length_map (fun b => (id b, b))).
  rewrite <- length_map_to_list.
  apply Permutation_length, map_to_list_to_map. by rewrite pairs_fst.
Qed.

(** ** Properties *)

(** C30: Refinement of the merge protocol.  For payloads of the signed-in
    user, the list the handler builds from [l] represents the collection the
    specification's merge builds from the representation of [l]: the
    handler implements the per-key upsert/delete, whatever the delivery. *)
Theorem apply_payloads_refines uid ps l :
  Forall (payload_owned uid) ps ->
  to_collection (apply_payloads ps l) = merge_all uid ps (to_collection l).
Proof.
  intros Hps. revert l. induction Hps as [|p ps Hp Hps IH]; intros l; [done|].
  change (apply_payloads (p :: ps) l) with (apply_payloads ps (on_postgres_changes p l)).
  rewrite IH, merge_all_cons. f_equal. by apply handler_refines.
Qed.

(** C31: Delivery order does not matter for distinct keys.  Two orders of
    the same owned payloads, no two of them about the same [id], leave the
    handler with lists that represent the same collection. *)
Theorem delivery_order_irrelevant uid ps qs l :
  Forall (payload_owned uid) ps -> ps ≡ₚ qs -> NoDup (map payload_key ps) ->
  to_collection (apply_payloads ps l) = to_collection (apply_payloads qs l).
Proof.
  intros Hown Hp Hnd.
  assert (Forall (payload_owned uid) qs) as Hown' by (by rewrite <- Hp).
  rewrite !(apply_payloads_refines uid) by done. by apply merge_all_perm.
Qed.

(** ** Concrete runs *)

Import Samples.

Local Ltac owned_payloads :=
  repeat constructor; intros ? Heq; inversion Heq; reflexivity.

Lemma apply_payloads_refines_witness :
  Forall (payload_owned "u1") [INSERT bing; DELETE "1"] /\
  to_collection (apply_payloads [INSERT bing; DELETE "1"] [google]) =
  merge_all "u1" [INSERT bing; DELETE "1"] (to_collection [google]).
Proof.
  assert (Forall (payload_owned "u1") [INSERT bing; DELETE "1"]) as H by owned_payloads.
  split; [exact H|]. by apply apply_payloads_refines.
Defined.

Lemma delivery_order_irrelevant_witness :
  Forall (payload_owned "u1") [INSERT bing; DELETE "1"] /\
  [INSERT bing; DELETE "1"] ≡ₚ [DELETE "1"; INSERT bing] /\
  NoDup (map payload_key [INSERT bing; DELETE "1"]) /\
  to_collection (apply_payloads [INSERT bing; DELETE "1"] [google]) =
  to_collection (apply_payloads [DELETE "1"; INSERT bing] [google]).
Proof.
  assert (Forall (payload_owned "u1") [INSERT bing; DELETE "1"]) as H1 by owned_payloads.
  assert ([INSERT bing; DELETE "1"] ≡ₚ [DELETE "1"; INSERT bing]) as H2 by apply perm_swap.
  assert (NoDup (map payload_key [INSERT bing; DELETE "1"])) as H3
    by (apply (bool_decide_unpack _); vm_compute; reflexivity).
  split_and!; [exact H1|exact H2|exact H3|].
  by apply (delivery_order_irrelevant "u1").
Defined.



End Merge.
