(* ===== verification/Manager.v ===== *)
(** * The [BookmarkManager] component: its state and handlers

    src/app/dashboard/bookmark-manager.tsx, lines 15-94.  The five
    [useState] hooks (lines 22-26) form the record [State].  The async
    handlers are split at their single [await] into the part that runs
    when the user acts ([_start]: the guard and the request it sends) and
    the part that runs when the store answers ([_finish]: the [try],
    [catch] and [finally] blocks).  Their interleaving with the store and
    the realtime channel is the step relation of Sync.v.

    The theorems give each handler's behaviour on every branch: the
    validation guard, the fields cleared on success, the alert on failure,
    [loading] reset in [finally], and that neither handler touches the
    bookmark list, which only the realtime callback changes. *)

From stdpp Require Import base list strings decidable.
From Stdlib Require Import String.
From S2P Require Import Prelude Bookmark Search Realtime.

Local Open Scope string_scope.

Module Manager.
Import Realtime Search.

(** The component's state (lines 22-26). *)
Record State := mkState {
  bookmarks : list Bookmark;
  url : string;
  title : string;
  loading : bool;
  filter : string;
}.

(** The first render: [useState(initialBookmarks)], empty inputs,
    [loading] false, empty filter. *)
Definition init (initialBookmarks : list Bookmark) : State :=
  mkState initialBookmarks "" "" false "".

(** The state setters. *)
Definition setBookmarks (f : list Bookmark -> list Bookmark) (st : State) : State :=
  mkState (f (bookmarks st)) (url st) (title st) (loading st) (filter st).
Definition setUrl (v : string) (st : State) : State :=
  mkState (bookmarks st) v (title st) (loading st) (filter st).
Definition setTitle (v : string) (st : State) : State :=
  mkState (bookmarks st) (url st) v (loading st) (filter st).
Definition setLoading (v : bool) (st : State) : State :=
  mkState (bookmarks st) (url st) (title st) v (filter st).
Definition setFilter (v : string) (st : State) : State :=
  mkState (bookmarks st) (url st) (title st) (loading st) v.

(** What the handlers show outside the component: [console.error] and
    [alert]. *)
Inductive Effect :=
| ConsoleError (msg : string)
| Alert (msg : string).

(** The row sent by [supabase.from("bookmarks").insert([{ url, title,
    user_id: userId }])] (lines 63-65). *)
Record InsertRequest := mkInsertRequest {
  req_url : string;
  req_title : string;
  req_user_id : string;
}.

(** The outcome of a store call: [{ error }] is null or an error. *)
Inductive StoreResult :=
| Ok
| Error (msg : string).

(** A JavaScript string is falsy exactly when it is empty. *)
Definition falsy (s : string) : bool := s === "".

(** [handleAdd] up to the [await] (lines 57-65): [if (!url || !title)
    return;], then [setLoading(true)] and the insert request. *)
Definition handleAdd_start (userId : string) (st : State)
  : State * option InsertRequest :=
  if falsy (url st) || falsy (title st) then (st, None)
  else (setLoading true st, Some (mkInsertRequest (url st) (title st) userId)).

(** [handleAdd] after the [await] (lines 67-76): on success clear both
    inputs; on an error log it and alert; in both cases [finally]
    resets [loading]. *)
Definition handleAdd_finish (res : StoreResult) (st : State) : State * list Effect :=
  match res with
  | Ok => (setLoading false (setTitle "" (setUrl "" st)), [])
  | Error _ =>
      (setLoading false st,
       [ConsoleError "Error adding bookmark:"; Alert "Failed to add bookmark"])
  end.

(** [handleDelete] after the [await] (lines 79-88): the state is never
    touched; an error is logged and alerted. *)
Definition handleDelete_finish (res : StoreResult) (st : State) : State * list Effect :=
  match res with
  | Ok => (st, [])
  | Error _ =>
      (st, [ConsoleError "Error deleting bookmark:"; Alert "Failed to delete bookmark"])
  end.

(** The realtime callback applied through [setBookmarks] (lines 42-48). *)
Definition on_change (p : Payload) (st : State) : State :=
  setBookmarks (on_postgres_changes p) st.

(** The rendered list (lines 90-94, 148-193). *)
Definition visible (st : State) : list Bookmark :=
  filteredBookmarks (bookmarks st) (filter st).

(** The submit button is [disabled={loading}] (line 124). *)
Definition submit_enabled (st : State) : bool := negb (loading st).

(** ** Properties of the handlers *)

Lemma falsy_iff s : falsy s = true <-> s = "".
Proof. apply String.eqb_eq. Qed.

(** The handlers leave the list to the realtime callback. *)
Lemma handleAdd_start_bookmarks u st :
  bookmarks (fst (handleAdd_start u st)) = bookmarks st.
Proof. unfold handleAdd_start. by destruct (falsy (url st)), (falsy (title st)). Qed.

Lemma handleAdd_finish_bookmarks res st :
  bookmarks (fst (handleAdd_finish res st)) = bookmarks st.
Proof. by destruct res. Qed.

Lemma handleAdd_finish_loading res st :
  loading (fst (handleAdd_finish res st)) = false.
Proof. by destruct res. Qed.

(** With both inputs filled, [handleAdd] sets [loading] and sends them. *)
Lemma handleAdd_start_valid u st :
  url st <> "" -> title st <> "" ->
  handleAdd_start u st = (setLoading true st, Some (mkInsertRequest (url st) (title st) u)).
Proof.
  intros Hu Ht. unfold handleAdd_start, falsy.
  by rewrite (str_eqb_false _ _ Hu), (str_eqb_false _ _ Ht).
Qed.

(** [loading] is set exactly when a request is sent. *)
Lemma handleAdd_start_loading u st :
  loading st = false ->
  (loading (fst (handleAdd_start u st)) = true <-> snd (handleAdd_start u st) <> None).
Proof.
  intros Hl. unfold handleAdd_start.
  destruct (falsy (url st)), (falsy (title st)); simpl; rewrite ?Hl; done.
Qed.

#[export] Hint Rewrite handleAdd_start_bookmarks handleAdd_finish_bookmarks
  handleAdd_finish_loading : bm_rw.

(** C15: [handleAdd] sends no request and changes nothing when the url or
    the title is empty; otherwise it sets [loading] and sends exactly the
    current url and title with the user's id. *)
Theorem handleAdd_start_spec uid st :
  (url st = "" \/ title st = "") /\ handleAdd_start uid st = (st, None) \/
  (url st <> "" /\ title st <> "") /\
  handleAdd_start uid st =
    (setLoading true st, Some (mkInsertRequest (url st) (title st) uid)).
Proof.
  unfold handleAdd_start, falsy.
  destruct (String.eqb_spec (url st) ""), (String.eqb_spec (title st) "");
    simpl; [left; tauto..|right; tauto].
Qed.

(** C16: when the store answers an insert, [loading] is reset and the list
    is left to the realtime channel; on success both inputs are cleared,
    on failure they are kept and the user is alerted. *)
Theorem handleAdd_finish_spec res st :
  let '(st', eff) := handleAdd_finish res st in
  loading st' = false /\ bookmarks st' = bookmarks st /\ filter st' = filter st /\
  match res with
  | Ok => url st' = "" /\ title st' = "" /\ eff = []
  | Error _ => url st' = url st /\ title st' = title st /\
               In (Alert "Failed to add bookmark") eff
  end.
Proof. destruct res; simpl; repeat split; auto. Qed.

(** C17: [handleDelete] never changes the component's state (there is no
    optimistic removal): after a failed delete the row is still shown,
    and the user is alerted. *)
Theorem handleDelete_finish_spec res st :
  fst (handleDelete_finish res st) = st /\
  (snd (handleDelete_finish res st) = [] <-> res = Ok).
Proof. destruct res; simpl; split; auto; split; congruence. Qed.

End Manager.
