(* ===== verification/Store.v ===== *)
(** * The hosted store, at its interface

    The [bookmarks] table of the hosted database, with the row-level
    security policy that scopes every query of a signed-in user to the
    rows whose [user_id] is that user.  Neither the table, the policy nor
    the client library is part of the repository: this file models them
    from the spec (sections 3 and 6) and marks them so in the manifest.

    [Backend] is the interface the application relies on: a scoped
    [select] (the snapshot query of src/app/dashboard/page.tsx, lines
    17-20), [insert] of a row (line 65), a scoped [delete] by id (line
    81), and the ids and [created_at] stamps the table holds.  [BackendLaws] states what the sync proofs of Sync.v use;
    [ListStore] is a store holding its rows newest first, and its
    instance discharges the laws. *)

From stdpp Require Import base list strings decidable.
From Stdlib Require Import String.
From S2P Require Import Prelude Bookmark.

Class Backend (S : Type) := {
  (** [select("*").order("created_at", { ascending: false })] as [uid] *)
  select : string -> S -> list Bookmark;
  (** [insert] of a complete row (server-assigned id and timestamp) *)
  insert : Bookmark -> S -> S;
  (** [delete().eq("id", i)] as [uid] *)
  delete : string -> string -> S -> S;
  (** every id held by the table *)
  row_ids : S -> list string;
  (** every [created_at] held by the table *)
  stamps : S -> list string;
}.

Class BackendLaws (S : Type) `{!Backend S} := {
  select_insert uid r s :
    select uid (insert r s) =
    if owned uid r then r :: select uid s else select uid s;
  select_delete_own uid i s :
    select uid (delete uid i s) = List.filter (fun b => id b !== i) (select uid s);
  select_delete_other uid u i s :
    u <> uid -> select uid (delete u i s) = select uid s;
  row_ids_insert r s : row_ids (insert r s) = id r :: row_ids s;
  row_ids_delete u i s : sublist (row_ids (delete u i s)) (row_ids s);
  select_ids uid s : sublist (ids (select uid s)) (row_ids s);
  select_owned uid s b : In b (select uid s) -> owned uid b = true;
  select_stamps uid s b : In b (select uid s) -> In (created_at b) (stamps s);
}.

(** ** A store as a list of rows, newest first *)

Record ListStore := mkListStore { rows : list Bookmark }.

(** Row-level security: a user sees and deletes only the rows it owns. *)
Definition ls_select (uid : string) (s : ListStore) : list Bookmark :=
  List.filter (owned uid) (rows s).

Definition ls_insert (r : Bookmark) (s : ListStore) : ListStore :=
  mkListStore (r :: rows s).

Definition ls_delete (uid i : string) (s : ListStore) : ListStore :=
  mkListStore (List.filter (fun b => negb ((id b === i) && owned uid b)) (rows s)).

#[export] Instance ListStore_backend : Backend ListStore := {
  select := ls_select;
  insert := ls_insert;
  delete := ls_delete;
  row_ids s := ids (rows s);
  stamps s := map created_at (rows s);
}.

Lemma ls_select_delete uid u i s :
  ls_select uid (ls_delete u i s) =
  List.filter (fun b => negb ((id b === i) && (u === uid))) (ls_select uid s).
Proof.
  unfold ls_select, ls_delete. simpl. rewrite !filter_filter.
  apply filter_ext_in. intros b _. unfold owned. str_case; simpl; by rewrite ?andb_false_r.
Qed.

#[export] Instance ListStore_laws : BackendLaws ListStore.
Proof.
  split; simpl.
  - intros uid r s. unfold ls_select. simpl. by destruct (owned uid r).
  - intros uid i s. rewrite ls_select_delete, String.eqb_refl.
    apply filter_ext_in. intros b _. by rewrite andb_true_r.
  - intros uid u i s Hu. rewrite ls_select_delete.
    apply filter_all_true. intros b _. by rewrite (str_eqb_false u uid), andb_false_r.
  - done.
  - intros u i s. apply sublist_map, filter_sublist.
  - intros uid s. apply sublist_map, filter_sublist.
  - intros uid s b. unfold ls_select. rewrite List.filter_In. tauto.
  - intros uid s b. unfold ls_select. rewrite List.filter_In. intros [Hb _].
    by apply in_map.
Qed.
