(* ===== verification/Sync.v ===== *)
(** * The dashboard as a system: component, store and realtime channel

    One signed-in dashboard session: the [BookmarkManager] state (Manager.v),
    the hosted store (Store.v, through its interface), the realtime
    channel opened by the [useEffect] of src/app/dashboard/bookmark-manager.tsx
    (lines 30-55) with the payloads published to it and not yet delivered,
    and the store calls awaiting their answer.  [step] interleaves the
    user's actions, the answers of the store, the deliveries of the channel
    and the writes of other sessions, in any order.

    The main theorem is the sync invariant: replaying the undelivered
    payloads on the displayed list gives the user's rows of the store,
    as long as no change happened between the snapshot query of the page
    and the subscription of the channel (the ghost flag [missed]).  It
    yields convergence once the channel is drained, and the gap itself is
    exhibited on a concrete run. *)

From stdpp Require Import base list strings decidable relations.
From Stdlib Require Import String Sorted.
From S2P Require Import Prelude Bookmark Search Realtime Manager Store.


Module Sync.
Import Realtime Manager.

Section Sync.
Context {St : Type} `{BackendLaws St}.

Record Sys := mkSys {
  uid : string;                         (** the [userId] prop *)
  ui : Manager.State;                   (** the component's state *)
  store : St;                            (** the hosted table *)
  subscribed : bool;                    (** the channel has joined *)
  inbox : list Payload;                 (** published, not yet delivered (FIFO) *)
  add_pending : option InsertRequest;   (** the insert awaiting its answer *)
  del_pending : list string;            (** the deletes awaiting their answer *)
  effects : list Effect;                (** console and alert output so far *)
  missed : bool;                        (** ghost: a change of the user's rows
                                            was published while not subscribed *)
}.

(** The session as the dashboard page creates it: the snapshot query of
    src/app/dashboard/page.tsx (lines 17-20) seeds [useState], and the
    channel is not joined yet. *)
Definition sys_init (u : string) (s0 : St) : Sys :=
  mkSys u (Manager.init (select u s0)) s0 false [] None [] [] false.

Definition set_ui (v : Manager.State) (s : Sys) : Sys :=
  mkSys (uid s) v (store s) (subscribed s) (inbox s) (add_pending s)
        (del_pending s) (effects s) (missed s).
Definition set_store (v : St) (s : Sys) : Sys :=
  mkSys (uid s) (ui s) v (subscribed s) (inbox s) (add_pending s)
        (del_pending s) (effects s) (missed s).
Definition set_add (v : option InsertRequest) (s : Sys) : Sys :=
  mkSys (uid s) (ui s) (store s) (subscribed s) (inbox s) v
        (del_pending s) (effects s) (missed s).
Definition set_del (v : list string) (s : Sys) : Sys :=
  mkSys (uid s) (ui s) (store s) (subscribed s) (inbox s) (add_pending s)
        v (effects s) (missed s).
Definition emit (e : list Effect) (s : Sys) : Sys :=
  mkSys (uid s) (ui s) (store s) (subscribed s) (inbox s) (add_pending s)
        (del_pending s) (effects s ++ e) (missed s).

(** The channel forwards the payloads of a change to a joined
    subscription; before the join they are lost. *)
Definition publish (ps : list Payload) (s : Sys) : Sys :=
  if subscribed s then
    mkSys (uid s) (ui s) (store s) true (inbox s ++ ps) (add_pending s)
          (del_pending s) (effects s) (missed s)
  else
    mkSys (uid s) (ui s) (store s) false (inbox s) (add_pending s)
          (del_pending s) (effects s) (missed s || negb (bool_decide (ps = []))).

(** The payloads the filter [user_id=eq.${userId}] lets through. *)
Definition insert_payloads (u : string) (r : Bookmark) : list Payload :=
  if owned u r then [INSERT r] else [].
Definition delete_payloads (u : string) (st : St) (who i : string) : list Payload :=
  if (who === u) && existsb (fun b => id b === i) (select u st) then [DELETE i] else [].

(** The row the store creates for a request, with the id and timestamp
    it assigns. *)
Definition row_of (req : InsertRequest) (i ts : string) : Bookmark :=
  mkBookmark i ts (req_user_id req) (req_url req) (req_title req).

(** The store stamps a new row with its clock ([created_at] defaults to
    [now()]): the stamp is never older than one the table holds. *)
Definition clock_ok (st : St) (ts : string) : Prop :=
  Forall (fun t => String.ltb ts t = false) (stamps st).

Inductive step : Sys -> Sys -> Prop :=
| step_subscribe s :
    subscribed s = false ->
    step s (mkSys (uid s) (ui s) (store s) true (inbox s) (add_pending s)
                  (del_pending s) (effects s) (missed s))
| step_type_url s v : step s (set_ui (setUrl v (ui s)) s)
| step_type_title s v : step s (set_ui (setTitle v (ui s)) s)
| step_type_filter s v : step s (set_ui (setFilter v (ui s)) s)
| step_submit s :
    submit_enabled (ui s) = true ->
    step s (set_add (snd (handleAdd_start (uid s) (ui s)))
                    (set_ui (fst (handleAdd_start (uid s) (ui s))) s))
| step_add_ok s req i ts :
    add_pending s = Some req ->
    ~ In i (row_ids (store s)) -> clock_ok (store s) ts ->
    step s (let r := row_of req i ts in
            emit (snd (handleAdd_finish Ok (ui s)))
              (set_add None (set_ui (fst (handleAdd_finish Ok (ui s)))
                (publish (insert_payloads (uid s) r) (set_store (insert r (store s)) s)))))
| step_add_err s req msg :
    add_pending s = Some req ->
    step s (emit (snd (handleAdd_finish (Error msg) (ui s)))
              (set_add None (set_ui (fst (handleAdd_finish (Error msg) (ui s))) s)))
| step_click_delete s i :
    In i (ids (visible (ui s))) ->
    step s (set_del (del_pending s ++ [i]) s)
| step_del_ok s pre i post :
    del_pending s = pre ++ i :: post ->
    step s (set_del (pre ++ post)
              (publish (delete_payloads (uid s) (store s) (uid s) i)
                 (set_store (delete (uid s) i (store s)) s)))
| step_del_err s pre i post msg :
    del_pending s = pre ++ i :: post ->
    step s (emit (snd (handleDelete_finish (Error msg) (ui s))) (set_del (pre ++ post) s))
| step_deliver s p rest :
    subscribed s = true -> inbox s = p :: rest ->
    step s (mkSys (uid s) (on_change p (ui s)) (store s) true rest (add_pending s)
                  (del_pending s) (effects s) (missed s))
| step_other_insert s r :
    ~ In (id r) (row_ids (store s)) -> clock_ok (store s) (created_at r) ->
    step s (publish (insert_payloads (uid s) r) (set_store (insert r (store s)) s))
| step_other_delete s who i :
    step s (publish (delete_payloads (uid s) (store s) who i)
              (set_store (delete who i (store s)) s)).

Definition reachable (u : string) (s0 : St) (s : Sys) : Prop :=
  rtc step (sys_init u s0) s.

(** ** The fields [publish] does not touch *)

Section publish_fields.
Context (ps : list Payload) (s : Sys).
Lemma publish_uid : uid (publish ps s) = uid s.
Proof. unfold publish. by destruct (subscribed s). Qed.
Lemma publish_ui : ui (publish ps s) = ui s.
Proof. unfold publish. by destruct (subscribed s). Qed.
Lemma publish_store : store (publish ps s) = store s.
Proof. unfold publish. by destruct (subscribed s). Qed.
Lemma publish_subscribed : subscribed (publish ps s) = subscribed s.
Proof. unfold publish. by destruct (subscribed s). Qed.
Lemma publish_add_pending : add_pending (publish ps s) = add_pending s.
Proof. unfold publish. by destruct (subscribed s). Qed.
Lemma publish_effects : effects (publish ps s) = effects s.
Proof. unfold publish. by destruct (subscribed s). Qed.
Lemma publish_del_pending : del_pending (publish ps s) = del_pending s.
Proof. unfold publish. by destruct (subscribed s). Qed.
Lemma publish_missed_subscribed : subscribed s = true -> missed (publish ps s) = missed s.
Proof. unfold publish. by intros ->. Qed.
End publish_fields.

#[local] Hint Rewrite publish_uid publish_ui publish_store publish_subscribed
  publish_add_pending publish_effects : bm_rw.

(** ** Invariants *)

(** The channel holds nothing before it joins, and [loading] is set
    exactly while an insert awaits its answer. *)
Definition wf (s : Sys) : Prop :=
  (subscribed s = false -> inbox s = []) /\
  (loading (ui s) = true <-> add_pending s <> None).

(** Replaying the undelivered payloads on the displayed list gives the
    user's rows of the store, unless a change was lost before the join. *)
Definition synced (s : Sys) : Prop :=
  missed s = false ->
  apply_payloads (inbox s) (bookmarks (ui s)) = select (uid s) (store s).

Lemma insert_payloads_correct u st r :
  apply_payloads (insert_payloads u r) (select u st) = select u (insert r st).
Proof. rewrite select_insert. unfold insert_payloads. by destruct (owned u r). Qed.

Lemma delete_payloads_correct u st who i :
  apply_payloads (delete_payloads u st who i) (select u st) = select u (delete who i st).
Proof.
  unfold delete_payloads. destruct (String.eqb_spec who u) as [->|Hne]; simpl.
  - rewrite select_delete_own.
    destruct (existsb _ _) eqn:Hx; simpl; [done|].
    symmetry. by apply delete_noop_existsb.
  - by rewrite select_delete_other.
Qed.

Lemma wf_publish ps v s : wf s -> wf (publish ps (set_store v s)).
Proof.
  unfold wf, publish, set_store. simpl. intros [Hin Hl].
  destruct (subscribed s) eqn:E; simpl; split; auto; discriminate.
Qed.

Lemma synced_publish ps v s :
  wf s -> synced s ->
  apply_payloads ps (select (uid s) (store s)) = select (uid s) v ->
  synced (publish ps (set_store v s)).
Proof.
  unfold wf, synced, publish, set_store. simpl. intros [Hin _] Hs Hps.
  destruct (subscribed s) eqn:Hsub; simpl; intros Hm.
  - by rewrite apply_payloads_app, Hs.
  - apply orb_false_iff in Hm as [Hm Hnil].
    apply negb_false_iff, bool_decide_eq_true in Hnil. subst ps.
    rewrite Hin in Hs |- * by done. by rewrite Hs.
Qed.

(** [synced] reads five fields only. *)
Lemma synced_same s t :
  missed t = missed s -> inbox t = inbox s -> bookmarks (ui t) = bookmarks (ui s) ->
  uid t = uid s -> store t = store s -> synced s -> synced t.
Proof. unfold synced. intros -> -> -> -> ->. done. Qed.

Ltac synced_by_publish lem :=
  eapply synced_same; [..|apply lem; [done|done|]];
  [simpl; autorewrite with bm_rw; done..|].

Lemma wf_step s s' : step s s' -> wf s -> wf s'.
Proof.
  intros Hst Hwf. pose proof Hwf as [Hin Hl].
  destruct Hst as [s Hsub|s v|s v|s v|s Hen|s req i ts Hp Hfresh Hclock|s req msg Hp
                  |s i Hi|s pre i post Hd|s pre i post msg Hd|s p rest Hsub Hbox
                  |s r Hfresh Hclock|s who i]; unfold wf; simpl.
  - split; [discriminate|done].
  - done.
  - done.
  - done.
  - unfold submit_enabled in Hen. apply negb_true_iff in Hen.
    split; [done|]. by apply handleAdd_start_loading.
  - split; [apply (proj1 (wf_publish _ _ _ Hwf))|].
    split; [discriminate|by intros []].
  - split; [done|]. split; [discriminate|by intros []].
  - done.
  - by apply wf_publish.
  - done.
  - split; [discriminate|done].
  - by apply wf_publish.
  - by apply wf_publish.
Qed.

Lemma synced_step s s' : step s s' -> wf s -> synced s -> synced s'.
Proof.
  intros Hst Hwf Hs.
  destruct Hst as [s Hsub|s v|s v|s v|s Hen|s req i ts Hp Hfresh Hclock|s req msg Hp
                  |s i Hi|s pre i post Hd|s pre i post msg Hd|s p rest Hsub Hbox
                  |s r Hfresh Hclock|s who i].
  1-5,7-8,10: revert Hs; apply synced_same; simpl; autorewrite with bm_rw; done.
  - synced_by_publish synced_publish. apply insert_payloads_correct.
  - synced_by_publish synced_publish. apply delete_payloads_correct.
  - unfold synced in *. simpl. by rewrite Hbox in Hs.
  - synced_by_publish synced_publish. apply insert_payloads_correct.
  - synced_by_publish synced_publish. apply delete_payloads_correct.
Qed.

Lemma inv_rtc s s' : rtc step s s' -> wf s /\ synced s -> wf s' /\ synced s'.
Proof.
  apply (rtc_preserve step (fun t => wf t /\ synced t)). intros x y Hxy [Hw Hs].
  split; [by eapply wf_step|by eapply synced_step].
Qed.

Lemma inv_init u s0 : wf (sys_init u s0) /\ synced (sys_init u s0).
Proof. unfold wf, synced. simpl. naive_solver. Qed.

Lemma reachable_inv u s0 s : reachable u s0 s -> wf s /\ synced s.
Proof. intros Hr. eapply inv_rtc; [exact Hr|apply inv_init]. Qed.

Lemma uid_step s s' : step s s' -> uid s' = uid s.
Proof. destruct 1; simpl; autorewrite with bm_rw; done. Qed.

Lemma uid_rtc s s' : rtc step s s' -> uid s' = uid s.
Proof.
  intros Hr. refine (rtc_preserve step (fun t => uid t = uid s) _ s s' Hr eq_refl).
  intros x y Hxy Hx. rewrite <- Hx. by apply uid_step.
Qed.

Lemma reachable_uid u s0 s : reachable u s0 s -> uid s = u.
Proof. intros Hr. apply (uid_rtc _ _ Hr). Qed.

(** The store never holds two rows with one id: each insert brings a
    fresh id, a delete only removes rows. *)
Lemma store_unique_step s s' :
  step s s' -> NoDup (row_ids (store s)) -> NoDup (row_ids (store s')).
Proof.
  intros Hst Hn. destruct Hst; simpl; autorewrite with bm_rw; simpl;
    rewrite ?row_ids_insert; try done.
  1,3: constructor; [by rewrite list_elem_of_In|done].
  all: eapply sublist_NoDup; [exact Hn|apply row_ids_delete].
Qed.

Lemma store_unique_rtc s s' :
  rtc step s s' -> NoDup (row_ids (store s)) -> NoDup (row_ids (store s')).
Proof. apply (rtc_preserve step (fun t => NoDup (row_ids (store t)))), store_unique_step. Qed.

(** A step that leaves the store as it is: everything but a write. *)
Definition quiet_step (s s' : Sys) : Prop := step s s' /\ store s' = store s.

Lemma quiet_rtc s s' : rtc quiet_step s s' -> rtc step s s'.
Proof. apply rtc_subrel. by intros ?? []. Qed.

(** Delivering the whole channel backlog, one payload at a time, by steps
    that do not touch the store. *)
Lemma drain_inbox_quiet n s :
  wf s -> synced s -> missed s = false -> List.length (inbox s) = n ->
  exists s', rtc quiet_step s s' /\ inbox s' = [] /\ store s' = store s /\
             uid s' = uid s /\ add_pending s' = add_pending s /\
             del_pending s' = del_pending s /\ effects s' = effects s /\
             bookmarks (ui s') = select (uid s) (store s).
Proof.
  revert s. induction n as [|n IH]; intros s Hwf Hs Hm Hlen.
  - destruct (inbox s) eqn:Hb; [|done]. exists s. unfold synced in Hs.
    rewrite Hb in Hs. split_and!; try done. by apply Hs.
  - destruct (inbox s) as [|p rest] eqn:Hb; [done|].
    assert (subscribed s = true) as Hsub.
    { destruct (subscribed s) eqn:E; [done|]. destruct Hwf as [Hin _]. by rewrite Hin in Hb. }
    pose proof (step_deliver s p rest Hsub Hb) as Hst.
    destruct (IH _ (wf_step _ _ Hst Hwf) (synced_step _ _ Hst Hwf Hs) Hm
                ltac:(simpl; simpl in Hlen; lia)) as (s' & Hr & Hnil & Hst' & Hu & Ha & Hdel & Heff & Hbm).
    exists s'. split_and!; try done. eapply rtc_l; [|exact Hr]. by split.
Qed.

Lemma drain_inbox n s :
  wf s -> synced s -> missed s = false -> List.length (inbox s) = n ->
  exists s', rtc step s s' /\ inbox s' = [] /\ store s' = store s /\
             uid s' = uid s /\ add_pending s' = add_pending s /\
             del_pending s' = del_pending s /\ effects s' = effects s /\
             bookmarks (ui s') = select (uid s) (store s).
Proof.
  intros Hwf Hs Hm Hlen.
  destruct (drain_inbox_quiet n s Hwf Hs Hm Hlen) as (s' & Hr & Hrest).
  exists s'. split; [by apply quiet_rtc|exact Hrest].
Qed.

(** ** Properties of the synchronised dashboard *)

(** C1: the sync invariant: in every reachable state in which no change
    slipped in before the channel joined, the displayed list with the
    undelivered payloads replayed on it is exactly the user's rows of
    the store, in the store's order. *)
Theorem sync_invariant u s0 s :
  reachable u s0 s -> missed s = false ->
  apply_payloads (inbox s) (bookmarks (ui s)) = select u (store s).
Proof.
  intros Hr Hm. rewrite <- (reachable_uid _ _ _ Hr). by apply (reachable_inv u s0).
Qed.

Lemma quiescent_select u s0 s :
  reachable u s0 s -> missed s = false -> inbox s = [] ->
  bookmarks (ui s) = select u (store s).
Proof.
  intros Hr Hm Hnil. rewrite <- (reachable_uid _ _ _ Hr).
  destruct (reachable_inv u s0 s Hr) as [_ Hs].
  unfold synced in Hs. rewrite Hnil in Hs. by apply Hs.
Qed.

Lemma quiescent_unique u s0 s :
  reachable u s0 s -> missed s = false -> inbox s = [] ->
  NoDup (row_ids s0) -> unique_ids (bookmarks (ui s)).
Proof.
  intros Hr Hm Hnil Hn. unfold unique_ids. rewrite (quiescent_select _ _ _ Hr Hm Hnil).
  eapply sublist_NoDup; [|apply select_ids]. by apply (store_unique_rtc _ _ Hr).
Qed.

Lemma reachable_loading u s0 s :
  reachable u s0 s -> (loading (ui s) = true <-> add_pending s <> None).
Proof. intros Hr. apply (reachable_inv u s0 s Hr). Qed.

(** C2: eventual consistency: from every reachable state without a lost
    change, delivering the channel's backlog (and nothing else) reaches a
    state that shows exactly the user's rows of the unchanged store. *)
Theorem eventually_consistent u s0 s :
  reachable u s0 s -> missed s = false ->
  exists s', rtc step s s' /\ inbox s' = [] /\ store s' = store s /\
             bookmarks (ui s') = select u (store s').
Proof.
  intros Hr Hm. destruct (reachable_inv u s0 s Hr) as [Hwf Hs].
  destruct (drain_inbox _ s Hwf Hs Hm eq_refl) as (s' & ? & ? & Hst & Hu & _ & _ & _ & Hbm).
  exists s'. rewrite Hst, Hbm, (reachable_uid _ _ _ Hr). done.
Qed.

(** C18: [loading] is true exactly while an insert awaits the store's
    answer, so the disabled button admits one insert at a time. *)
Theorem loading_iff_add_pending u s0 s :
  reachable u s0 s -> (loading (ui s) = true <-> add_pending s <> None).
Proof. intros Hr. apply (reachable_inv u s0 s Hr). Qed.

(** ** Ownership of what is displayed *)

(** The list holds the user's rows and the channel carries no foreign
    INSERT. *)
Definition owned_view (s : Sys) : Prop :=
  all_owned (uid s) (bookmarks (ui s)) /\ Forall (payload_owned (uid s)) (inbox s).

Lemma owned_view_same s t :
  uid t = uid s -> bookmarks (ui t) = bookmarks (ui s) -> inbox t = inbox s ->
  owned_view s -> owned_view t.
Proof. unfold owned_view. intros -> -> ->. done. Qed.

Lemma insert_payloads_owned u r : Forall (payload_owned u) (insert_payloads u r).
Proof.
  unfold insert_payloads. destruct (owned u r) eqn:E; repeat constructor.
  by intros n [= <-].
Qed.

Lemma delete_payloads_owned u st who i : Forall (payload_owned u) (delete_payloads u st who i).
Proof. unfold delete_payloads. destruct (_ && _); repeat constructor. by intros n. Qed.

Lemma owned_view_publish ps v s :
  Forall (payload_owned (uid s)) ps -> owned_view s -> owned_view (publish ps (set_store v s)).
Proof.
  unfold owned_view, publish, set_store. simpl. intros Hps [Hb Hi].
  destruct (subscribed s); simpl; split; try done. by apply Forall_app_2.
Qed.

Lemma owned_view_step s s' : step s s' -> owned_view s -> owned_view s'.
Proof.
  intros Hst Ho.
  destruct Hst as [s Hsub|s v|s v|s v|s Hen|s req i ts Hp Hfresh Hclock|s req msg Hp
                  |s i Hi|s pre i post Hd|s pre i post msg Hd|s p rest Hsub Hbox
                  |s r Hfresh Hclock|s who i].
  1-5,7-8,10: revert Ho; apply owned_view_same; simpl; autorewrite with bm_rw; done.
  - eapply owned_view_same; [..|apply owned_view_publish; [apply insert_payloads_owned|exact Ho]];
      simpl; autorewrite with bm_rw; done.
  - apply owned_view_publish; [apply delete_payloads_owned|exact Ho].
  - destruct Ho as [Hb Hi]. rewrite Hbox in Hi. apply Forall_cons in Hi as [Hp Hr].
    split; [by apply handler_keeps_owned|done].
  - apply owned_view_publish; [apply insert_payloads_owned|exact Ho].
  - apply owned_view_publish; [apply delete_payloads_owned|exact Ho].
Qed.

Lemma reachable_owned_view u s0 s : reachable u s0 s -> owned_view s.
Proof.
  intros Hr. apply (rtc_preserve step owned_view owned_view_step (sys_init u s0) s Hr).
  split; [|constructor]. apply List.Forall_forall. intros b. apply select_owned.
Qed.

(** C24: in every reachable state, whatever the interleaving and even
    after a change was lost, the displayed list holds only rows of the
    signed-in user: the snapshot is scoped by the store, and the channel's
    filter lets no foreign INSERT through. *)
Theorem displayed_rows_owned u s0 s :
  reachable u s0 s -> all_owned u (bookmarks (ui s)).
Proof.
  intros Hr. rewrite <- (reachable_uid _ _ _ Hr).
  by destruct (reachable_owned_view u s0 s Hr).
Qed.

(** ** Order of what is displayed *)

(** [a] may be shown above [b] in the [created_at] order of the
    snapshot query: [a] is not older. *)
Definition not_older (a b : Bookmark) : Prop :=
  String.ltb (created_at a) (created_at b) = false.

Definition store_ordered (s : Sys) : Prop :=
  StronglySorted not_older (select (uid s) (store s)).

Lemma store_ordered_same s t :
  uid t = uid s -> store t = store s -> store_ordered s -> store_ordered t.
Proof. unfold store_ordered. intros -> ->. done. Qed.

Lemma ordered_insert u st r :
  clock_ok st (created_at r) -> StronglySorted not_older (select u st) ->
  StronglySorted not_older (select u (insert r st)).
Proof.
  intros Hc Hs. rewrite select_insert. destruct (owned u r); [|done].
  constructor; [done|]. apply List.Forall_forall. intros b Hb.
  unfold not_older. apply (proj1 (List.Forall_forall _ _) Hc).
  by apply (select_stamps u st b).
Qed.

Lemma ordered_delete u who i st :
  StronglySorted not_older (select u st) -> StronglySorted not_older (select u (delete who i st)).
Proof.
  intros Hs. destruct (String.eqb_spec who u) as [->|Hne].
  - rewrite select_delete_own. by apply StronglySorted_filter.
  - by rewrite select_delete_other.
Qed.

Lemma store_ordered_step s s' : step s s' -> store_ordered s -> store_ordered s'.
Proof.
  intros Hst Ho.
  destruct Hst as [s Hsub|s v|s v|s v|s Hen|s req i ts Hp Hfresh Hclock|s req msg Hp
                  |s i Hi|s pre i post Hd|s pre i post msg Hd|s p rest Hsub Hbox
                  |s r Hfresh Hclock|s who i].
  1-5,7-8,10-11: revert Ho; apply store_ordered_same; simpl; autorewrite with bm_rw; done.
  all: unfold store_ordered in *; simpl; autorewrite with bm_rw; simpl.
  - by apply ordered_insert.
  - by apply ordered_delete.
  - by apply ordered_insert.
  - by apply ordered_delete.
Qed.

(** C32: with the store's clock, the displayed list is in the order of
    the snapshot query: at quiescence of a session whose snapshot came
    back ordered by [created_at], newest first, every row is shown above
    the rows older than it, although the realtime INSERT branch only ever
    prepends. *)
Theorem quiescent_ordered u s0 s :
  reachable u s0 s -> StronglySorted not_older (select u s0) ->
  missed s = false -> inbox s = [] ->
  StronglySorted not_older (bookmarks (ui s)).
Proof.
  intros Hr H0 Hm Hnil. rewrite (quiescent_select _ _ _ Hr Hm Hnil).
  rewrite <- (reachable_uid _ _ _ Hr).
  apply (rtc_preserve step store_ordered store_ordered_step (sys_init u s0) s Hr H0).
Qed.

(** C33: a rapid double delete (spec, section 5): with the channel
    joined and no lost change, two deletes of one id both answered by
    the store lead, once the channel is drained, to a state with no
    delete pending, no alert, the list equal to the store's rows of the
    user, and the id gone from it. *)
Theorem double_delete u s0 s i :
  reachable u s0 s -> missed s = false -> subscribed s = true -> del_pending s = [i; i] ->
  exists s', rtc step s s' /\ del_pending s' = [] /\ effects s' = effects s /\
    inbox s' = [] /\ bookmarks (ui s') = select u (store s') /\
    ~ In i (ids (bookmarks (ui s'))).
Proof.
  intros Hr Hm Hsub Hd. pose proof (reachable_uid _ _ _ Hr) as Huid.
  pose proof (step_del_ok s [] i [i] Hd) as H1.
  match type of H1 with step _ ?t => set (s1 := t) in H1 end.
  pose proof (step_del_ok s1 [] i [] eq_refl) as H2.
  match type of H2 with step _ ?t => set (s2 := t) in H2 end.
  assert (reachable u s0 s2) as Hr2.
  { unfold reachable in *. etrans; [exact Hr|]. eapply rtc_l; [exact H1|]. by apply rtc_once. }
  destruct (reachable_inv _ _ _ Hr2) as [Hwf2 Hs2].
  assert (subscribed s1 = true) as Hsub1.
  { unfold s1. simpl. by rewrite publish_subscribed. }
  assert (missed s2 = false) as Hm2.
  { unfold s2. simpl. rewrite publish_missed_subscribed by done.
    unfold s1. simpl. by rewrite publish_missed_subscribed. }
  destruct (drain_inbox _ s2 Hwf2 Hs2 Hm2 eq_refl)
    as (s' & Hr' & Hnil & Hst & Hu' & _ & Hdel & Heff & Hbm).
  assert (uid s2 = u) as Hu2 by (rewrite <- Huid; apply (uid_rtc s s2); by eapply rtc_l; [exact H1|apply rtc_once]).
  exists s'. split_and!.
  - eapply rtc_l; [exact H1|]. eapply rtc_l; [exact H2|exact Hr'].
  - by rewrite Hdel.
  - rewrite Heff. unfold s2, s1. do 4 (simpl; rewrite ?publish_effects). done.
  - done.
  - by rewrite Hbm, Hst, Hu2.
  - rewrite Hbm. unfold s2. do 4 (simpl; autorewrite with bm_rw). rewrite select_delete_own.
    rewrite in_ids_iff. intros (b & Hb & Hin).
    apply (in_delete b i) in Hin as [_ Hne]. done.
Qed.

(** C23: read your writes: in a state with the channel joined, no lost
    change and no insert pending, submitting a filled form, the store
    accepting the row under a fresh id and a current stamp, and the
    channel's delivery lead
    to a state where no insert is pending and the list holds that row,
    with the submitted url and title and the user's id. *)
Theorem add_roundtrip u s0 s i ts :
  reachable u s0 s -> missed s = false -> subscribed s = true ->
  loading (ui s) = false -> url (ui s) <> "" -> title (ui s) <> "" ->
  ~ In i (row_ids (store s)) -> clock_ok (store s) ts ->
  exists s', rtc step s s' /\ add_pending s' = None /\
    In (mkBookmark i ts u (url (ui s)) (title (ui s))) (bookmarks (ui s')).
Proof.
  intros Hr Hm Hsub Hl Hu Ht Hi Hc.
  pose proof (reachable_uid _ _ _ Hr) as Huid.
  set (req := mkInsertRequest (url (ui s)) (title (ui s)) u).
  set (s1 := set_add (Some req) (set_ui (setLoading true (ui s)) s)).
  assert (step s s1) as H1.
  { pose proof (step_submit s) as Hst. unfold s1, req.
    rewrite (handleAdd_start_valid _ _ Hu Ht), Huid in Hst. apply Hst.
    unfold submit_enabled. by rewrite Hl. }
  pose proof (step_add_ok s1 req i ts eq_refl Hi Hc) as H2.
  match type of H2 with step _ ?t => set (s2 := t) in H2 end.
  assert (reachable u s0 s2) as Hr2.
  { unfold reachable in *. etrans; [exact Hr|]. eapply rtc_l; [exact H1|]. by apply rtc_once. }
  destruct (reachable_inv _ _ _ Hr2) as [Hwf2 Hs2].
  assert (missed s2 = false) as Hm2.
  { unfold s2, publish. simpl. by rewrite Hsub. }
  destruct (drain_inbox _ s2 Hwf2 Hs2 Hm2 eq_refl) as (s' & Hr' & _ & Hst & Hu' & Ha & _ & _ & Hbm).
  exists s'. split_and!.
  - eapply rtc_l; [exact H1|]. eapply rtc_l; [exact H2|exact Hr'].
  - by rewrite Ha.
  - rewrite Hbm. unfold s2. simpl. rewrite publish_uid, publish_store. simpl.
    rewrite Huid, select_insert. unfold owned. simpl. rewrite String.eqb_refl. by left.
Qed.

End Sync.

(** ** Concrete runs on the list store *)

Import Samples.

(** Freshness and clock premises of the concrete runs, by computation. *)
Local Ltac premise := vm_compute; first [intuition congruence | repeat constructor].

Definition store0 : ListStore := mkListStore [google].

(** The page renders with [google]; the channel joins; another tab adds
    [bing]. *)
Definition demo_state : Sys :=
  publish (insert_payloads "u1" bing)
    (set_store (insert bing store0)
       (mkSys "u1" (Manager.init (select "u1" store0)) store0 true [] None [] [] false)).

Lemma demo_reachable : reachable "u1" store0 demo_state.
Proof.
  eapply rtc_l; [apply step_subscribe; reflexivity|].
  eapply rtc_l; [apply (step_other_insert _ bing); premise|].
  apply rtc_refl.
Qed.

(** C3: the gap between the snapshot and the subscription: the page's
    query runs on the server, the channel joins only after the component
    mounts, and a row added in between (here by another tab) is never
    delivered: the run ends with the channel joined and drained, no
    request pending, and the list missing a row of the store. *)
Theorem snapshot_subscribe_gap :
  exists s, reachable "u1" (mkListStore []) s /\
    subscribed s = true /\ inbox s = [] /\ add_pending s = None /\
    del_pending s = [] /\ bookmarks (ui s) <> select "u1" (store s).
Proof.
  eexists. split.
  - eapply rtc_l; [apply (step_other_insert _ google); premise|].
    eapply rtc_l; [apply step_subscribe; reflexivity|]. apply rtc_refl.
  - split_and!; try reflexivity. vm_compute. discriminate.
Qed.

(** ... and the channel delivers the INSERT of [bing]. *)
Definition demo_delivered : Sys :=
  mkSys "u1" (on_change (INSERT bing) (ui demo_state)) (store demo_state) true []
        None [] [] false.

Lemma demo_delivered_reachable : reachable "u1" store0 demo_delivered.
Proof.
  unfold reachable. etrans; [apply demo_reachable|].
  eapply rtc_l; [apply (step_deliver _ (INSERT bing) []); reflexivity|]. apply rtc_refl.
Qed.

(** ... and the user fills in the form. *)
Definition demo_typed : Sys :=
  set_ui (setTitle "Rocq" (setUrl "https://rocq-prover.org" (ui demo_delivered)))
    (set_ui (setUrl "https://rocq-prover.org" (ui demo_delivered)) demo_delivered).

Lemma demo_typed_reachable : reachable "u1" store0 demo_typed.
Proof.
  unfold reachable. etrans; [apply demo_delivered_reachable|].
  eapply rtc_l; [apply (step_type_url _ "https://rocq-prover.org")|].
  eapply rtc_l; [apply (step_type_title _ "Rocq")|]. apply rtc_refl.
Qed.

Lemma add_roundtrip_witness :
  missed demo_typed = false /\ subscribed demo_typed = true /\
  loading (ui demo_typed) = false /\ url (ui demo_typed) <> "" /\
  title (ui demo_typed) <> "" /\ ~ In "7" (row_ids (store demo_typed)) /\
  clock_ok (store demo_typed) "2024-05-01T11:00:00Z" /\
  exists s', rtc step demo_typed s' /\ add_pending s' = None /\
    In (mkBookmark "7" "2024-05-01T11:00:00Z" "u1" (url (ui demo_typed)) (title (ui demo_typed)))
       (bookmarks (ui s')).
Proof.
  assert (~ In "7" (row_ids (store demo_typed))) as Hi by premise.
  assert (clock_ok (store demo_typed) "2024-05-01T11:00:00Z") as Hc by premise.
  assert (url (ui demo_typed) <> "") as Hu by discriminate.
  assert (title (ui demo_typed) <> "") as Ht by discriminate.
  split_and!; try reflexivity; try assumption.
  apply (add_roundtrip "u1" store0 demo_typed "7" "2024-05-01T11:00:00Z");
    [exact demo_typed_reachable|reflexivity|reflexivity|reflexivity|exact Hu|exact Ht|exact Hi|exact Hc].
Defined.

Lemma quiescent_ordered_witness :
  StronglySorted not_older (select "u1" store0) /\ missed demo_delivered = false /\
  inbox demo_delivered = [] /\ StronglySorted not_older (bookmarks (ui demo_delivered)).
Proof.
  assert (StronglySorted not_older (select "u1" store0)) as H0 by (repeat constructor).
  split_and!; try reflexivity; [exact H0|].
  apply (quiescent_ordered "u1" store0 demo_delivered);
    [exact demo_delivered_reachable|exact H0|reflexivity|reflexivity].
Defined.

(** ... and the user clicks delete twice on Google. *)
Definition demo_two_deletes : Sys :=
  set_del (["1"] ++ ["1"]) (set_del ([] ++ ["1"]) demo_delivered).

Lemma demo_two_deletes_reachable : reachable "u1" store0 demo_two_deletes.
Proof.
  unfold reachable. etrans; [apply demo_delivered_reachable|].
  eapply rtc_l; [apply (step_click_delete _ "1"); vm_compute; auto|].
  eapply rtc_l; [apply (step_click_delete _ "1"); vm_compute; auto|]. apply rtc_refl.
Qed.

Lemma double_delete_witness :
  missed demo_two_deletes = false /\ subscribed demo_two_deletes = true /\
  del_pending demo_two_deletes = ["1"; "1"] /\
  exists s', rtc step demo_two_deletes s' /\ del_pending s' = [] /\
    effects s' = effects demo_two_deletes /\ inbox s' = [] /\
    bookmarks (ui s') = select "u1" (store s') /\ ~ In "1" (ids (bookmarks (ui s'))).
Proof.
  split_and!; try reflexivity.
  apply (double_delete "u1" store0 demo_two_deletes "1");
    [exact demo_two_deletes_reachable|reflexivity|reflexivity|reflexivity].
Defined.



Lemma displayed_rows_owned_witness : all_owned "u1" (bookmarks (ui demo_state)).
Proof. apply (displayed_rows_owned "u1" store0 demo_state demo_reachable). Defined.

Lemma sync_invariant_witness :
  missed demo_state = false /\
  apply_payloads (inbox demo_state) (bookmarks (ui demo_state)) =
  select "u1" (store demo_state).
Proof.
  split; [reflexivity|].
  apply (sync_invariant "u1" store0 demo_state); [exact demo_reachable|reflexivity].
Defined.

Lemma loading_iff_add_pending_witness :
  loading (ui demo_state) = true <-> add_pending demo_state <> None.
Proof. apply (loading_iff_add_pending "u1" store0 demo_state demo_reachable). Defined.

Lemma eventually_consistent_witness :
  missed demo_state = false /\
  exists s', rtc step demo_state s' /\ inbox s' = [] /\ store s' = store demo_state /\
             bookmarks (ui s') = select "u1" (store s').
Proof.
  split; [reflexivity|].
  apply (eventually_consistent "u1" store0 demo_state); [exact demo_reachable|reflexivity].
Defined.

End Sync.
