(* ===== verification/Render.v ===== *)
(** * What [BookmarkManager] renders

    The JSX returned by the component in src/app/dashboard/bookmark-manager.tsx
    (lines 96-196), kept to what carries behaviour: the form's input
    values and its submit button ([disabled={loading}], its label), the
    search box's value, and the list: the empty-state message when
    [filteredBookmarks] is empty, else one item per bookmark with its React
    [key], title, url, the external link ([href], [target], [rel]) and the
    delete button's argument.  Class names and icons are left out.

    The theorems relate the view to the state and, through Sync.v, to the
    session: keys are unique at quiescence (React's requirement on
    [key]), every item links to its own url in a new tab and deletes its
    own id, and the button is disabled exactly while an insert is
    pending. *)

From stdpp Require Import base list strings decidable relations.
From Stdlib Require Import String.
From S2P Require Import Prelude Bookmark Search Realtime Manager Store Sync.

Module Render.
Import Sync.

(** The form (lines 99-129). *)
Record FormView := mkFormView {
  title_value : string;
  url_value : string;
  submit_disabled : bool;
  submit_label : string;
}.

Definition render_form (st : Manager.State) : FormView :=
  mkFormView (Manager.title st) (Manager.url st) (Manager.loading st)
    (if Manager.loading st then "Adding..." else "Add Bookmark")%string.

(** One row of the list (lines 156-191). *)
Record Item := mkItem {
  key : string;            (** [key={bookmark.id}] *)
  heading : string;        (** [{bookmark.title}] *)
  caption : string;        (** [{bookmark.url}] *)
  href : string;           (** [<a href={bookmark.url}] *)
  target : string;
  rel : string;
  delete_arg : string;     (** [onClick={() => handleDelete(bookmark.id)}] *)
}.

Definition render_item (b : Bookmark) : Item :=
  mkItem (id b) (title b) (url b) (url b) "_blank" "noopener noreferrer" (id b).

Inductive ListView :=
| EmptyState (message : string)
| Items (items : list Item).

(** [filteredBookmarks.length === 0 ? ... : filteredBookmarks.map(...)]
    (lines 147-194). *)
Definition render_list (fb : list Bookmark) : ListView :=
  if Nat.eqb (List.length fb) 0
  then EmptyState "No bookmarks found. Start by adding one!"
  else Items (map render_item fb).

Record View := mkView {
  form : FormView;
  search_value : string;   (** the search input's [value={filter}] *)
  list_view : ListView;
}.

(** The returned tree (lines 96-196). *)
Definition render (st : Manager.State) : View :=
  mkView (render_form st) (Manager.filter st) (render_list (Manager.visible st)).

(** The React keys of the rendered list. *)
Definition keys (v : ListView) : list string :=
  match v with EmptyState _ => [] | Items items => map key items end.

Lemma keys_render_list fb : keys (render_list fb) = ids fb.
Proof.
  unfold render_list. destruct fb as [|b fb]; simpl; [done|].
  unfold ids. by rewrite map_map.
Qed.

(** ** Properties *)

(** C27: the rendered list shows the empty-state message exactly when no
    bookmark matches the search; otherwise its items correspond one to one
    and in order to the shown bookmarks: each item is keyed by its
    bookmark's id, shows its title and url, links to its url in a new tab
    with [rel="noopener noreferrer"], and deletes its id. *)
Theorem render_list_spec st :
  (list_view (render st) = EmptyState "No bookmarks found. Start by adding one!" <->
   Manager.visible st = []) /\
  (forall items, list_view (render st) = Items items ->
     Forall2 (fun it b => key it = id b /\ heading it = title b /\ caption it = url b /\
                          href it = url b /\ target it = "_blank" /\
                          rel it = "noopener noreferrer" /\ delete_arg it = id b)
             items (Manager.visible st)).
Proof.
  simpl. unfold render_list.
  destruct (Nat.eqb_spec (List.length (Manager.visible st)) 0) as [H0|H0].
  - apply length_zero_iff_nil in H0. rewrite H0. split; [done|]. by intros items [=].
  - split; [split; [discriminate|intros E; by rewrite E in H0]|]. intros items [= <-].
    clear H0. induction (Manager.visible st) as [|b l IH]; simpl; constructor; [|exact IH].
    simpl. done.
Qed.

(** C28: in every reachable state at quiescence of a session whose store
    started with unique ids, the React keys of the rendered list are
    unique. *)
Theorem rendered_keys_unique {St} `{BackendLaws St} u (s0 : St) s :
  reachable u s0 s -> missed s = false -> inbox s = [] -> NoDup (row_ids s0) ->
  NoDup (keys (list_view (render (ui s)))).
Proof.
  intros Hr Hm Hnil Hn. simpl. rewrite keys_render_list.
  apply unique_ids_filter. by apply (quiescent_unique u s0 s).
Qed.

(** C29: in every reachable state the submit button is disabled, and
    reads "Adding...", exactly while an insert awaits the store. *)
Theorem submit_button_pending {St} `{BackendLaws St} u (s0 : St) s :
  reachable u s0 s ->
  (submit_disabled (form (render (ui s))) = true <-> add_pending s <> None) /\
  (submit_label (form (render (ui s))) = "Adding..."%string <-> add_pending s <> None).
Proof.
  intros Hr. pose proof (reachable_loading u s0 s Hr) as Hl. simpl.
  split; [done|]. rewrite <- Hl. destruct (Manager.loading (ui s)); simpl; [done|].
  split; [discriminate|done].
Qed.

(** ** Witnesses *)

Lemma rendered_keys_unique_witness :
  missed demo_delivered = false /\ inbox demo_delivered = [] /\ NoDup (row_ids store0) /\
  NoDup (keys (list_view (render (ui demo_delivered)))).
Proof.
  assert (NoDup (row_ids store0)) as Hn by apply NoDup_singleton.
  split_and!; try reflexivity; [exact Hn|].
  apply (rendered_keys_unique "u1" store0 demo_delivered);
    [exact demo_delivered_reachable|reflexivity|reflexivity|exact Hn].
Defined.

Lemma submit_button_pending_witness :
  (submit_disabled (form (render (ui demo_state))) = true <-> add_pending demo_state <> None) /\
  (submit_label (form (render (ui demo_state))) = "Adding..."%string <->
   add_pending demo_state <> None).
Proof. apply (submit_button_pending "u1" store0 demo_state demo_reachable). Defined.

End Render.
