(* ===== verification/Lifecycle.v ===== *)
(** * The lifetime of the realtime subscription

    The [useEffect] of src/app/dashboard/bookmark-manager.tsx (lines
    30-55): when a render commits with dependencies [[supabase, userId]]
    different from the last committed ones, React runs the previous
    cleanup ([supabase.removeChannel(channel)], line 53) and then the
    effect, which creates the channel ["bookmarks-realtime"] with the
    filter [user_id=eq.${userId}] and subscribes it; on unmount the last
    cleanup runs.  [supabase] is the value of [createClient()] at that
    render (line 28): its identity is what React compares.

    The state is the list of channels registered with the realtime
    client, the reference counter that names new channels, and the
    dependencies and channel of the last committed effect.  The theorems
    show that at most one channel of the component is registered at any
    time, that it filters on the current user, that unmounting releases
    it, and that re-rendering with the same client and user does not
    resubscribe. *)

From stdpp Require Import base list strings decidable.
From Stdlib Require Import String.
From S2P Require Import Prelude.

Module Lifecycle.

Record Channel := mkChannel {
  ch_ref : nat;          (** the client's handle for the channel *)
  ch_topic : string;
  ch_filter : string;
}.

#[export] Instance Channel_eq_dec : EqDecision Channel.
Proof. solve_decision. Defined.

Record Runtime := mkRuntime {
  channels : list Channel;                 (** registered with the realtime client *)
  next_ref : nat;
  deps : option (nat * string);            (** [[supabase, userId]] of the last effect *)
  current : option Channel;                (** the channel its cleanup removes *)
}.

Definition runtime0 : Runtime := mkRuntime [] 0 None None.

(** [supabase.channel("bookmarks-realtime").on(..., { filter:
    `user_id=eq.${userId}` }, ...).subscribe()] (lines 32-50). *)
Definition effect (client : nat) (userId : string) (rt : Runtime) : Runtime :=
  let ch := mkChannel (next_ref rt) "bookmarks-realtime" ("user_id=eq." ++ userId)%string in
  mkRuntime (channels rt ++ [ch]) (S (next_ref rt)) (Some (client, userId)) (Some ch).

(** [supabase.removeChannel(channel)] (line 53). *)
Definition removeChannel (ch : Channel) (chs : list Channel) : list Channel :=
  List.filter (fun c => negb (Nat.eqb (ch_ref c) (ch_ref ch))) chs.

(** The returned cleanup (lines 52-54), if an effect ran. *)
Definition cleanup (rt : Runtime) : Runtime :=
  match current rt with
  | Some ch => mkRuntime (removeChannel ch (channels rt)) (next_ref rt) (deps rt) None
  | None => rt
  end.

Definition deps_changed (d : option (nat * string)) (client : nat) (userId : string) : bool :=
  match d with
  | Some (c, u) => negb (Nat.eqb c client && String.eqb u userId)
  | None => true
  end.

(** A render committing with [client = createClient()] and [userId]. *)
Definition commit (client : nat) (userId : string) (rt : Runtime) : Runtime :=
  if deps_changed (deps rt) client userId then effect client userId (cleanup rt) else rt.

(** Unmount: the last cleanup runs. *)
Definition unmount (rt : Runtime) : Runtime :=
  let rt' := cleanup rt in mkRuntime (channels rt') (next_ref rt') None None.

Inductive Event :=
| Render (client : nat) (userId : string)
| Unmount.

Definition run_event (rt : Runtime) (e : Event) : Runtime :=
  match e with
  | Render c u => commit c u rt
  | Unmount => unmount rt
  end.

Definition run (es : list Event) (rt : Runtime) : Runtime := fold_left run_event es rt.

(** ** Invariant: the registered channels are the current one, if any *)

Definition opt_list {A} (o : option A) : list A :=
  match o with Some x => [x] | None => [] end.

Definition lc_inv (rt : Runtime) : Prop :=
  channels rt = opt_list (current rt) /\
  (current rt = None <-> deps rt = None) /\
  (forall c u ch, deps rt = Some (c, u) -> current rt = Some ch ->
     ch_topic ch = "bookmarks-realtime"%string /\
     ch_filter ch = ("user_id=eq." ++ u)%string).

Lemma removeChannel_self ch : removeChannel ch [ch] = [].
Proof. unfold removeChannel. simpl. by rewrite Nat.eqb_refl. Qed.

Lemma cleanup_inv rt : lc_inv rt -> channels (cleanup rt) = [] /\ current (cleanup rt) = None.
Proof.
  intros [Hc _]. unfold cleanup. destruct (current rt) as [ch|] eqn:E; simpl; [|by rewrite Hc].
  rewrite Hc. by rewrite removeChannel_self.
Qed.

Lemma run_event_inv rt e : lc_inv rt -> lc_inv (run_event rt e).
Proof.
  intros Hi. pose proof (cleanup_inv rt Hi) as [Hc Hn].
  destruct e as [c u|]; simpl.
  - unfold commit. destruct (deps_changed _ _ _); [|done].
    unfold effect, lc_inv. simpl. rewrite Hc. split_and!; [done|naive_solver|].
    by intros ?? ch [= _ <-] [= <-].
  - unfold unmount, lc_inv. cbn -[cleanup]. rewrite Hc. naive_solver.
Qed.

Lemma run_inv es rt : lc_inv rt -> lc_inv (run es rt).
Proof.
  revert rt. induction es as [|e es IH]; intros rt Hi; simpl; [done|].
  by apply IH, run_event_inv.
Qed.

Lemma runtime0_inv : lc_inv runtime0.
Proof. unfold lc_inv. simpl. naive_solver. Qed.

Lemma run_app es fs rt : run (es ++ fs) rt = run fs (run es rt).
Proof. apply fold_left_app. Qed.

Lemma deps_commit c u rt : deps (commit c u rt) = Some (c, u).
Proof.
  unfold commit, deps_changed. destruct (deps rt) as [[c' u']|] eqn:Hd; simpl; [|done].
  destruct (Nat.eqb_spec c' c), (String.eqb_spec u' u); simpl; subst; done.
Qed.

Lemma commit_same c u rt : deps rt = Some (c, u) -> commit c u rt = rt.
Proof. intros Hd. unfold commit. rewrite Hd. simpl. by rewrite Nat.eqb_refl, String.eqb_refl. Qed.

(** ** Properties of the subscription's lifetime *)

(** C19: whatever the sequence of renders and unmounts, the component has
    at most one channel registered: none when no effect is live, else
    exactly one, filtered on the [userId] of the last committed effect. *)
Theorem one_channel_for_current_user es :
  match deps (run es runtime0) with
  | Some (_, u) => exists ch, channels (run es runtime0) = [ch] /\
                              ch_topic ch = "bookmarks-realtime"%string /\
                              ch_filter ch = ("user_id=eq." ++ u)%string
  | None => channels (run es runtime0) = []
  end.
Proof.
  destruct (run_inv es runtime0 runtime0_inv) as (Hc & Hn & Hf).
  destruct (deps (run es runtime0)) as [[c u]|] eqn:Hd.
  - destruct (current (run es runtime0)) as [ch|] eqn:Ec.
    + exists ch. rewrite Hc. by destruct (Hf c u ch eq_refl eq_refl).
    + discriminate (proj1 Hn eq_refl).
  - rewrite Hc. by rewrite (proj2 Hn eq_refl).
Qed.

(** C20: unmounting releases the channel on every path: after any history
    followed by an unmount, no channel of the component is registered. *)
Theorem unmount_releases es : channels (run (es ++ [Unmount]) runtime0) = [].
Proof.
  rewrite run_app. simpl. unfold unmount. cbn -[cleanup].
  by apply cleanup_inv, run_inv, runtime0_inv.
Qed.

(** A re-render with the same client object and user does not touch
    the subscription (no unsubscribe/resubscribe window). *)
Theorem rerender_same_deps_noop es c u :
  run (es ++ [Render c u; Render c u]) runtime0 = run (es ++ [Render c u]) runtime0.
Proof. rewrite !run_app. simpl. apply commit_same, deps_commit. Qed.

Lemma run_commit_same c u n rt :
  deps rt = Some (c, u) -> run (repeat (Render c u) n) rt = rt.
Proof.
  intros Hd. induction n as [|n IH]; [done|]. simpl. by rewrite commit_same.
Qed.

Definition is_render (e : Event) : bool :=
  match e with Render _ _ => true | Unmount => false end.

Lemma next_ref_run_event rt e :
  next_ref (run_event rt e) <= next_ref rt + (if is_render e then 1 else 0).
Proof.
  destruct e as [c u|]; simpl.
  - unfold commit. destruct (deps_changed _ _ _); simpl; [|lia].
    unfold cleanup. destruct (current rt); simpl; lia.
  - unfold unmount, cleanup. destruct (current rt); simpl; lia.
Qed.

(** C25: the component creates at most one channel per render, so no
    more channels than renders over any history; and a session whose
    renders all use the same client object and user subscribes exactly
    once, however often it re-renders. *)
Theorem subscription_count_bound es c u n :
  next_ref (run es runtime0) <= List.length (List.filter is_render es) /\
  next_ref (run (repeat (Render c u) (S n)) runtime0) = 1.
Proof.
  split.
  - cut (forall rt, next_ref (run es rt) <= next_ref rt + List.length (List.filter is_render es));
      [intros H; apply H|].
    induction es as [|e es IH]; intros rt; simpl; [lia|].
    pose proof (next_ref_run_event rt e) as He.
    specialize (IH (run_event rt e)). destruct (is_render e); simpl in *; lia.
  - simpl. rewrite run_commit_same; [done|apply deps_commit].
Qed.

End Lifecycle.
