(* ===== verification/Session.v ===== *)
(** * The dashboard session with the subscription's lifetime

    Sync.v treats the realtime channel as joined once and kept for the
    whole session; Lifecycle.v models the [useEffect] of
    src/app/dashboard/bookmark-manager.tsx (lines 30-55) that creates and
    removes it.  This file puts them together.  A session is a
    [Lifecycle.Runtime] beside a [Sync.Sys].  A render commits the effect
    with [supabase = createClient()] (line 28) and the [userId] prop; when
    the dependencies changed, the cleanup of the old effect removes the old
    channel ([teardown]: the component is no longer subscribed and the
    changes that channel had not yet delivered are lost) and a new channel
    is created, which joins later by [Sync.step_subscribe].  The other
    events are the steps of [Sync.step]; a channel can only join while the
    effect has one.

    Which client objects the renders use is a parameter of [cstep]:
    utils/supabase/client is not among the sources, and whether
    [createClient()] returns the same object at each render decides
    whether a re-render resubscribes. *)

From stdpp Require Import base list strings relations.
From Stdlib Require Import String.
From S2P Require Import Prelude Bookmark Realtime Manager Store Sync Lifecycle.

Module Session.
Import Realtime Manager Sync Lifecycle.

Section Session.
Context {St : Type} `{BackendLaws St}.

(** The cleanup of the previous effect, [supabase.removeChannel(channel)]
    (line 53), seen from the component. *)
Definition teardown (s : @Sys St) : @Sys St :=
  mkSys (uid s) (ui s) (store s) false [] (add_pending s) (del_pending s)
        (effects s) (missed s || negb (bool_decide (inbox s = []))).

Record Session := mkSession { rt : Runtime; sys : @Sys St }.

Definition session_init (u : string) (s0 : St) : Session :=
  mkSession runtime0 (sys_init u s0).

(** A render of [BookmarkManager] whose [createClient()] returned the
    client object [c]: React commits the effect with the dependencies
    [[supabase, userId]] (line 55), and the cleanup of the previous effect
    runs first when they changed. *)
Definition render (c : nat) (x : Session) : Session :=
  mkSession (commit c (uid (sys x)) (rt x))
    (if deps_changed (deps (rt x)) c (uid (sys x)) then teardown (sys x) else sys x).

(** One event of the session; [client_ok] says which client objects a
    render may get from [createClient()]. *)
Inductive cstep (client_ok : nat -> Prop) : Session -> Session -> Prop :=
| cs_render x c : client_ok c -> cstep client_ok x (render c x)
| cs_sync x s' :
    step (sys x) s' ->
    (subscribed s' = true -> current (rt x) <> None) ->
    cstep client_ok x (mkSession (rt x) s').

(** ** Invariant of the composed session *)

Definition sess_inv (u : string) (x : Session) : Prop :=
  (wf (sys x) /\ synced (sys x)) /\ lc_inv (rt x) /\ uid (sys x) = u /\
  (subscribed (sys x) = true -> current (rt x) <> None) /\
  (forall c u', deps (rt x) = Some (c, u') -> u' = u).

Lemma teardown_inv s : wf s /\ synced s -> wf (teardown s) /\ synced (teardown s).
Proof.
  intros [[_ Hl] Hs]. unfold wf, synced in *. simpl. split; [done|].
  intros Hm. apply orb_false_iff in Hm as [Hm Hb].
  apply negb_false_iff, bool_decide_eq_true in Hb. rewrite <- Hs, Hb by done. done.
Qed.

Lemma teardown_id s : subscribed s = false -> inbox s = [] -> teardown s = s.
Proof.
  intros Hs Hb. unfold teardown. destruct s; simpl in *. subst.
  rewrite bool_decide_eq_true_2 by done. simpl. by rewrite orb_false_r.
Qed.

Lemma commit_unchanged c u r :
  deps_changed (deps r) c u = false -> commit c u r = r.
Proof. intros Hd. unfold commit. by rewrite Hd. Qed.



Lemma sess_inv_init u s0 : sess_inv u (session_init u s0).
Proof.
  split; [apply inv_init|]. split_and!; [apply runtime0_inv|done|discriminate|discriminate].
Qed.

Lemma sess_inv_step ok u x y : cstep ok x y -> sess_inv u x -> sess_inv u y.
Proof.
  intros [x' c Hc|x' s' Hst Hj] (Hi & Hlc & Hu & Hsub & Hd); unfold sess_inv, render; cbn [rt sys].
  - pose proof (run_event_inv (rt x') (Render c (uid (sys x'))) Hlc) as Hlc'.
    simpl in Hlc'. split; [by case_match; [apply teardown_inv|]|].
    split_and!; [exact Hlc'|by case_match| |].
    + destruct (deps_changed _ _ _) eqn:E; [discriminate|].
      rewrite commit_unchanged by done. exact Hsub.
    + rewrite deps_commit. congruence.
  - destruct Hi as [Hw Hs]. split; [split; [by eapply wf_step|by eapply synced_step]|].
    split_and!; [exact Hlc|by rewrite (uid_step _ _ Hst)|exact Hj|exact Hd].
Qed.

Lemma sess_inv_rtc ok u x y : rtc (cstep ok) x y -> sess_inv u x -> sess_inv u y.
Proof. apply (rtc_preserve (cstep ok) (sess_inv u)). intros ??. apply sess_inv_step. Qed.

Lemma subscribed_deps u x :
  sess_inv u x -> subscribed (sys x) = true ->
  exists ch, channels (rt x) = [ch] /\ ch_filter ch = ("user_id=eq." ++ u)%string.
Proof.
  intros (_ & (Hc & Hn & Hf) & _ & Hsub & Hd) Hs.
  destruct (current (rt x)) as [ch|] eqn:Ec; [|by destruct (Hsub Hs)].
  destruct (deps (rt x)) as [[c u']|] eqn:Ed; [|discriminate (proj2 Hn eq_refl)].
  exists ch. rewrite Hc. split; [done|].
  rewrite <- (Hd c u' eq_refl). by destruct (Hf c u' ch eq_refl eq_refl).
Qed.

Lemma render_same_client u c x :
  sess_inv u x -> (forall c' u', deps (rt x) = Some (c', u') -> c' = c) ->
  sys (render c x) = sys x.
Proof.
  intros (Hi & (_ & Hn & _) & Hu & Hsub & Hd) Hc. unfold render; cbn [sys].
  destruct (deps (rt x)) as [[c1 u1]|] eqn:Ed; simpl.
  - rewrite (Hc c1 u1 eq_refl), (Hd c1 u1 eq_refl), <- Hu.
    by rewrite Nat.eqb_refl, String.eqb_refl.
  - destruct (subscribed (sys x)) eqn:Es.
    + by destruct (Hsub eq_refl); apply Hn.
    + apply teardown_id; [done|]. by apply (proj1 (proj1 Hi)).
Qed.

(** ** Properties of the composed session *)

(** C4: Invariant of the dashboard session with its subscription's
    lifetime.  In every state reached by renders (with any client objects)
    and the component's, store's and channel's steps: when no change was
    lost, replaying the undelivered payloads on the list gives the user's
    rows of the store; and while the component is subscribed, exactly one
    channel is registered, filtered on the signed-in user. *)
Theorem session_invariant ok u s0 x :
  rtc (cstep ok) (session_init u s0) x -> missed (sys x) = false ->
  apply_payloads (inbox (sys x)) (bookmarks (ui (sys x))) = select u (store (sys x)) /\
  (subscribed (sys x) = true ->
   exists ch, channels (rt x) = [ch] /\ ch_filter ch = ("user_id=eq." ++ u)%string).
Proof.
  intros Hr Hm. pose proof (sess_inv_rtc ok u _ _ Hr (sess_inv_init u s0)) as Hx.
  split; [|by apply subscribed_deps].
  destruct Hx as ([_ Hs] & _ & <- & _). by apply Hs.
Qed.

(** C12: With one client object for every render (a [createClient()]
    that returns the same object each time), the component's side of
    every session run is a run of [Sync.step] from the snapshot: renders
    never tear the subscription down, so every theorem of Sync.v applies
    to the session. *)
Theorem singleton_client_refines c u s0 x :
  rtc (cstep (eq c)) (session_init u s0) x -> reachable u s0 (sys x).
Proof.
  intros Hr.
  cut (reachable u s0 (sys x) /\ sess_inv u x /\
       forall c' u', deps (rt x) = Some (c', u') -> c' = c); [by intros []|].
  refine (rtc_preserve (cstep (eq c))
            (fun y => reachable u s0 (sys y) /\ sess_inv u y /\
                      forall c' u', deps (rt y) = Some (c', u') -> c' = c) _ _ _ Hr _).
  - intros y z Hst (Hy & Hi & Hc). split_and!; [| by eapply sess_inv_step|].
    + destruct Hst as [y c' <-|y s' Hs _]; [by rewrite (render_same_client u c y)|].
      unfold reachable. etrans; [exact Hy|by apply rtc_once].
    + destruct Hst as [y c' <-|y s' _ _]; [|exact Hc].
      unfold render; cbn [rt]. rewrite deps_commit. congruence.
  - split_and!; [apply rtc_refl|apply sess_inv_init|discriminate].
Qed.

End Session.

(** ** Concrete runs *)

Import Samples.

Local Ltac joined := intros _; vm_compute; congruence.
Local Ltac premise := vm_compute; first [intuition congruence | repeat constructor].

(** The session joins with client object 1 ... *)
Definition join (x : @Session ListStore) : @Session ListStore :=
  let s := sys x in
  mkSession (rt x) (mkSys (uid s) (ui s) (store s) true (inbox s) (add_pending s)
                          (del_pending s) (effects s) (missed s)).

Definition sess_joined : @Session ListStore := join (render 1 (session_init "u1" store0)).

Lemma sess_joined_run : rtc (cstep (eq 1)) (session_init "u1" store0) sess_joined.
Proof.
  eapply rtc_l; [by apply cs_render|].
  eapply rtc_l; [apply cs_sync; [by apply step_subscribe|joined]|]. apply rtc_refl.
Qed.

Lemma singleton_client_refines_witness :
  rtc (cstep (eq 1)) (session_init "u1" store0) sess_joined /\
  reachable "u1" store0 (sys sess_joined).
Proof.
  split; [exact sess_joined_run|]. apply (singleton_client_refines 1). exact sess_joined_run.
Defined.

Lemma session_invariant_witness :
  rtc (cstep (eq 1)) (session_init "u1" store0) sess_joined /\
  missed (sys sess_joined) = false /\
  apply_payloads (inbox (sys sess_joined)) (bookmarks (ui (sys sess_joined))) =
    select "u1" (store (sys sess_joined)) /\
  (subscribed (sys sess_joined) = true ->
   exists ch, channels (rt sess_joined) = [ch] /\ ch_filter ch = "user_id=eq.u1"%string).
Proof.
  assert (missed (sys sess_joined) = false) as Hm by reflexivity.
  split; [exact sess_joined_run|]. split; [exact Hm|].
  apply (session_invariant (eq 1) "u1" store0); [exact sess_joined_run|exact Hm].
Defined.

(** ... Bing is added from another tab, and the change waits in the
    channel; then the component re-renders and [createClient()] returns a
    new object (2), so the effect is cleaned up and created anew, and the
    new channel joins. *)
Definition sess_lost : @Session ListStore :=
  let s := sys sess_joined in
  join (render 2 (mkSession (rt sess_joined)
                    (publish (insert_payloads (uid s) bing) (set_store (insert bing (store s)) s)))).

(** C14: A re-render that gets a new client object loses the changes the
    old channel had not delivered: in this run the new channel has joined,
    nothing is pending or undelivered, the store holds the user's row
    Bing, and the list does not show it; nothing in the component ever
    reloads the rows. *)
Theorem fresh_client_loses_change :
  rtc (cstep (fun _ => True)) (session_init "u1" store0) sess_lost /\
  subscribed (sys sess_lost) = true /\ inbox (sys sess_lost) = [] /\
  add_pending (sys sess_lost) = None /\ del_pending (sys sess_lost) = [] /\
  In bing (select "u1" (store (sys sess_lost))) /\
  ~ In bing (bookmarks (ui (sys sess_lost))).
Proof.
  split.
  - eapply rtc_l; [by apply (cs_render _ _ 1)|].
    eapply rtc_l; [apply cs_sync; [by apply step_subscribe|joined]|].
    eapply rtc_l; [apply cs_sync; [apply (step_other_insert _ bing); premise|joined]|].
    eapply rtc_l; [by apply (cs_render _ _ 2)|].
    eapply rtc_l; [apply cs_sync; [by apply step_subscribe|joined]|]. apply rtc_refl.
  - vm_compute. split_and!; try reflexivity; [by left|]. intuition congruence.
Qed.

End Session.
