(* ===== verification/Pages.v ===== *)
(** * The server pages: authentication guards and the snapshot

    src/app/page.tsx ([Home], lines 6-14), src/app/login/page.tsx
    ([LoginPage], lines 6-14) and src/app/dashboard/page.tsx
    ([DashboardPage], lines 6-20 and 66).  Each page asks the session for
    the user and either calls [redirect] (which ends the render) or
    renders.  The dashboard reads the snapshot of the user's bookmarks and
    passes [bookmarks || []] and [user.id] to [BookmarkManager].

    A redirect names its target by the string passed to [redirect]; the
    route table [path_of_href] maps the three routes of the [app]
    directory back to their pages, and [navigate] follows redirects with
    fuel.  The theorem shows that two page loads always suffice to reach
    a rendered page (no redirect loop), and which page that is for each
    path and session.  A failed snapshot query is passed on as an empty
    list ([bookmarks || []]), so it shows as an account without
    bookmarks.  The dashboard's props are the initial state
    [Sync.sys_init] of Sync.v.  The landing page's feature cards
    [feature_cards] are the promises Tabs.v checks. *)

From stdpp Require Import base list strings decidable.
From Stdlib Require Import String.
From S2P Require Import Prelude Bookmark.

Module Pages.
Local Open Scope string_scope.

(** The session's user, as [supabase.auth.getUser()] returns it. *)
Record User := mkUser { user_id_of : string; email : string }.

Inductive Path := PHome | PLogin | PDashboard.

#[export] Instance Path_eq_dec : EqDecision Path.
Proof. solve_decision. Defined.

(** The route table of the [app] directory: [app/page.tsx] serves [/],
    [app/login/page.tsx] [/login], [app/dashboard/page.tsx] [/dashboard]. *)
Definition path_of_href (h : string) : option Path :=
  if String.eqb h "/" then Some PHome
  else if String.eqb h "/login" then Some PLogin
  else if String.eqb h "/dashboard" then Some PDashboard
  else None.

(** What a server page produces; [redirect(href)] ends the render. *)
Inductive Page :=
| RedirectTo (href : string)
| RenderHome
| RenderLogin
| RenderDashboard (email : string) (initialBookmarks : list Bookmark) (userId : string).

(** [Home] (src/app/page.tsx, lines 6-14). *)
Definition Home (user : option User) : Page :=
  match user with Some _ => RedirectTo "/dashboard" | None => RenderHome end.

(** [LoginPage] (src/app/login/page.tsx, lines 6-14). *)
Definition LoginPage (user : option User) : Page :=
  match user with Some _ => RedirectTo "/dashboard" | None => RenderLogin end.

(** [DashboardPage] (src/app/dashboard/page.tsx, lines 6-20 and 66);
    [data] is the result of the snapshot query, [None] when it failed. *)
Definition DashboardPage (user : option User) (data : option (list Bookmark)) : Page :=
  match user with
  | None => RedirectTo "/login"
  | Some u => RenderDashboard (email u) (default [] data) (user_id_of u)
  end.

Definition route (p : Path) (user : option User) (data : option (list Bookmark)) : Page :=
  match p with
  | PHome => Home user
  | PLogin => LoginPage user
  | PDashboard => DashboardPage user data
  end.

(** The browser following redirects, at most [fuel] page loads. *)
Fixpoint navigate (fuel : nat) (p : Path) (user : option User)
    (data : option (list Bookmark)) : option Page :=
  match fuel with
  | O => None
  | S f =>
      match route p user data with
      | RedirectTo h =>
          match path_of_href h with
          | Some q => navigate f q user data
          | None => None
          end
      | pg => Some pg
      end
  end.

(** The page a visit ends on. *)
Definition landing (p : Path) (user : option User) (data : option (list Bookmark)) : Page :=
  match user with
  | Some u => RenderDashboard (email u) (default [] data) (user_id_of u)
  | None => if decide (p = PHome) then RenderHome else RenderLogin
  end.

(** [FeatureCard] (lines 96-113) renders its [title] as a heading and its
    [description] as a paragraph under its icon; the icon and the classes
    are markup and are left out. *)
Record FeatureCard := mkFeatureCard { fc_title : string; fc_description : string }.

(** The "Features Preview" grid of the landing page (lines 66-82): what
    the application promises its users.  Tabs.v proves the promises of
    the second card and the access part of the third. *)
Definition feature_cards : list FeatureCard :=
  [mkFeatureCard "Access Anywhere"
     "Manage your bookmarks from any browser or device with ease.";
   mkFeatureCard "Real-time Sync"
     "Add a bookmark in one tab, see it immediately in all others.";
   mkFeatureCard "Privacy First"
     "Your bookmarks are encrypted and only accessible by you."].

(** ** Properties *)


(** C22: from any path and session, two page loads reach a rendered page
    (no redirect loop), and more loads change nothing: a signed-in user
    lands on the dashboard with the user's own id, a signed-out user on
    the landing page from [/] and on the login page otherwise. *)
Theorem navigate_lands fuel p user data :
  2 <= fuel -> navigate fuel p user data = Some (landing p user data).
Proof.
  intros Hf. destruct fuel as [|[|fuel]]; [lia|lia|].
  destruct p, user; reflexivity.
Qed.



Lemma navigate_lands_witness :
  navigate 3 PHome (Some (mkUser "u1" "a@b.c")) None =
  Some (RenderDashboard "a@b.c" [] "u1").
Proof. apply (navigate_lands 3 PHome (Some (mkUser "u1" "a@b.c")) None). lia. Defined.

End Pages.
