(* ===== verification/Tabs.v ===== *)
(** * Two tabs over one store

    The landing page promises "Add a bookmark in one tab, see it
    immediately in all others" and bookmarks "only accessible by you"
    ([Pages.feature_cards], src/app/page.tsx lines 66-82).  Sync.v models
    one tab, in which the writes of every other session are the rules
    [step_other_insert] and [step_other_delete].  This file runs two
    instances of [BookmarkManager] (src/app/dashboard/bookmark-manager.tsx)
    side by side on one store: a step of one tab that does not write the
    store leaves the other as it is ([l_quiet]), and a write acknowledged
    to one tab ([handleAdd] or [handleDelete] after its [await]) is at the
    same moment a write of another session for the other tab ([l_add],
    [l_delete]).  The tabs interleave arbitrarily ([tstep]).

    The theorems show that each tab's side of a two-tab run is a run of
    [Sync.step], so the single-tab theorems hold for both tabs, with the
    two tabs always on one store; that each tab shows only its own user's
    rows; that a row added in one tab of a user appears in the other once
    its channel has delivered; and that two tabs deleting the same row
    both end without an alert and without the row. *)

From stdpp Require Import base list strings relations.
From Stdlib Require Import String.
From S2P Require Import Prelude Bookmark Realtime Manager Store Sync Pages.

Module Tabs.
Import Realtime Manager Sync Pages.

Section Tabs.
Context {St : Type} `{BackendLaws St}.

(** A tab after the store acknowledged its insert (lines 62-74), as in
    [step_add_ok]. *)
Definition own_add (s : @Sys St) (req : InsertRequest) (i ts : string) : @Sys St :=
  let r := row_of req i ts in
  emit (snd (handleAdd_finish Ok (ui s)))
    (set_add None (set_ui (fst (handleAdd_finish Ok (ui s)))
      (publish (insert_payloads (uid s) r) (set_store (insert r (store s)) s)))).

(** A tab after the store acknowledged its delete (lines 79-87), as in
    [step_del_ok]. *)
Definition own_delete (s : @Sys St) (pre : list string) (i : string) (post : list string)
  : @Sys St :=
  set_del (pre ++ post)
    (publish (delete_payloads (uid s) (store s) (uid s) i)
       (set_store (delete (uid s) i (store s)) s)).

(** The same writes seen from the other tab, as in [step_other_insert]
    and [step_other_delete]. *)
Definition seen_insert (r : Bookmark) (s : @Sys St) : @Sys St :=
  publish (insert_payloads (uid s) r) (set_store (insert r (store s)) s).

Definition seen_delete (who i : string) (s : @Sys St) : @Sys St :=
  publish (delete_payloads (uid s) (store s) who i) (set_store (delete who i (store s)) s).

(** A step of the left tab. *)
Inductive lstep : @Sys St * @Sys St -> @Sys St * @Sys St -> Prop :=
| l_quiet a a' b : quiet_step a a' -> lstep (a, b) (a', b)
| l_add a b req i ts :
    add_pending a = Some req -> ~ In i (row_ids (store a)) -> clock_ok (store a) ts ->
    lstep (a, b) (own_add a req i ts, seen_insert (row_of req i ts) b)
| l_delete a b pre i post :
    del_pending a = pre ++ i :: post ->
    lstep (a, b) (own_delete a pre i post, seen_delete (uid a) i b).

(** A step of either tab. *)
Inductive tstep : @Sys St * @Sys St -> @Sys St * @Sys St -> Prop :=
| t_left x y : lstep x y -> tstep x y
| t_right a b a' b' : lstep (b, a) (b', a') -> tstep (a, b) (a', b').

Definition tabs_init (u v : string) (s0 : St) : @Sys St * @Sys St :=
  (sys_init u s0, sys_init v s0).

(** ** Each tab's side is a run of [Sync.step] *)

Lemma own_add_store s req i ts : store (own_add s req i ts) = insert (row_of req i ts) (store s).
Proof. unfold own_add. simpl. by rewrite publish_store. Qed.

Lemma seen_insert_store r s : store (seen_insert r s) = insert r (store s).
Proof. unfold seen_insert. by rewrite publish_store. Qed.

Lemma own_delete_store s pre i post : store (own_delete s pre i post) = delete (uid s) i (store s).
Proof. unfold own_delete. simpl. by rewrite publish_store. Qed.

Lemma seen_delete_store who i s : store (seen_delete who i s) = delete who i (store s).
Proof. unfold seen_delete. by rewrite publish_store. Qed.

Lemma lstep_proj a b a' b' :
  lstep (a, b) (a', b') -> store a = store b ->
  step a a' /\ rtc step b b' /\ store a' = store b'.
Proof.
  inversion 1 as [? ? ? [Hst Hs]|? ? req i ts Hp Hfresh Hclock|? ? pre i post Hd];
    subst; intros Hab.
  - split_and!; [done|apply rtc_refl|congruence].
  - split_and!; [by apply step_add_ok| |by rewrite own_add_store, seen_insert_store, Hab].
    apply rtc_once, step_other_insert; by rewrite <- Hab.
  - split_and!; [by apply step_del_ok|apply rtc_once, step_other_delete|].
    by rewrite own_delete_store, seen_delete_store, Hab.
Qed.

Lemma tstep_proj a b a' b' :
  tstep (a, b) (a', b') -> store a = store b ->
  rtc step a a' /\ rtc step b b' /\ store a' = store b'.
Proof.
  inversion 1 as [? ? Hl|? ? ? ? Hl]; subst; intros Hab.
  - destruct (lstep_proj _ _ _ _ Hl Hab) as (Ha & Hb & Hs). split_and!; [by apply rtc_once|done|done].
  - destruct (lstep_proj _ _ _ _ Hl (eq_sym Hab)) as (Hb & Ha & Hs).
    split_and!; [done|by apply rtc_once|done].
Qed.

Lemma tabs_reachable u v s0 a b :
  rtc tstep (tabs_init u v s0) (a, b) ->
  reachable u s0 a /\ reachable v s0 b /\ store a = store b.
Proof.
  intros Hr.
  refine (rtc_preserve tstep
            (fun x => reachable u s0 x.1 /\ reachable v s0 x.2 /\ store x.1 = store x.2)
            _ _ _ Hr _); [|split_and!; [apply rtc_refl|apply rtc_refl|done]].
  intros [x1 x2] [y1 y2] Hst (Hx1 & Hx2 & Hs); simpl in *.
  destruct (tstep_proj _ _ _ _ Hst Hs) as (H1 & H2 & Hs').
  unfold reachable in *. split_and!; [by etrans|by etrans|done].
Qed.

(** Runs of one tab that do not write the store are runs of the pair. *)
Lemma quiet_left a a' b : rtc quiet_step a a' -> rtc tstep (a, b) (a', b).
Proof.
  induction 1 as [|a1 a2 a3 Hs _ IH]; [done|].
  eapply rtc_l; [|exact IH]. by apply t_left, l_quiet.
Qed.

Lemma quiet_right a b b' : rtc quiet_step b b' -> rtc tstep (a, b) (a, b').
Proof.
  induction 1 as [|b1 b2 b3 Hs _ IH]; [done|].
  eapply rtc_l; [|exact IH]. by apply t_right, l_quiet.
Qed.

(** The request a tab awaits carries the tab's own user id (line 64). *)
Lemma add_pending_owner_step s s' :
  step s s' ->
  (forall req, add_pending s = Some req -> req_user_id req = uid s) ->
  forall req, add_pending s' = Some req -> req_user_id req = uid s'.
Proof.
  intros Hst Hp req. rewrite (uid_step _ _ Hst).
  destruct Hst; simpl; rewrite ?publish_add_pending; simpl;
    try (intros ?; discriminate); try apply Hp.
  unfold handleAdd_start. destruct (_ || _); simpl; [intros ?; discriminate|by intros [= <-]].
Qed.

Lemma add_pending_owner u s0 s req :
  reachable u s0 s -> add_pending s = Some req -> req_user_id req = u.
Proof.
  intros Hr. rewrite <- (reachable_uid _ _ _ Hr). revert req.
  refine (rtc_preserve step _ add_pending_owner_step _ _ Hr _). discriminate.
Qed.

(** What the other tab's writes leave of a tab. *)
Lemma seen_delete_fields who i s :
  uid (seen_delete who i s) = uid s /\ subscribed (seen_delete who i s) = subscribed s /\
  del_pending (seen_delete who i s) = del_pending s /\ effects (seen_delete who i s) = effects s /\
  (subscribed s = true -> missed (seen_delete who i s) = missed s).
Proof.
  unfold seen_delete. rewrite publish_uid, publish_subscribed, publish_del_pending, publish_effects.
  split_and!; try done. intros Hs. by rewrite publish_missed_subscribed.
Qed.

Lemma own_delete_fields s i :
  uid (own_delete s [] i []) = uid s /\ subscribed (own_delete s [] i []) = subscribed s /\
  del_pending (own_delete s [] i []) = [] /\ effects (own_delete s [] i []) = effects s /\
  (subscribed s = true -> missed (own_delete s [] i []) = missed s).
Proof.
  unfold own_delete. simpl. rewrite publish_uid, publish_subscribed, publish_effects.
  split_and!; try done. intros Hs. by rewrite publish_missed_subscribed.
Qed.

(** A tab of a pair reached from the start drains its channel within the
    pair, ending with the list equal to its user's rows of the store. *)
Lemma drain_tab u v s0 a b (left : bool) :
  rtc tstep (tabs_init u v s0) (a, b) ->
  missed (if left then a else b) = false ->
  exists c, rtc tstep (a, b) (if left then (c, b) else (a, c)) /\
    inbox c = [] /\ store c = store (if left then a else b) /\
    del_pending c = del_pending (if left then a else b) /\
    effects c = effects (if left then a else b) /\
    bookmarks (ui c) = select (if left then u else v) (store c).
Proof.
  intros Hr Hm. destruct (tabs_reachable _ _ _ _ _ Hr) as (Ha & Hb & _).
  assert (reachable (if left then u else v) s0 (if left then a else b)) as Hc
    by (by destruct left).
  destruct (reachable_inv _ _ _ Hc) as [Hw Hs].
  destruct (drain_inbox_quiet _ _ Hw Hs Hm eq_refl) as (c & Hrc & Hnil & Hst & Hu & _ & Hd & He & Hbm).
  exists c. split_and!; try done.
  - destruct left; [by apply quiet_left|by apply quiet_right].
  - by rewrite Hbm, (reachable_uid _ _ _ Hc), Hst.
Qed.

(** ** Properties of two tabs *)

(** C8: Two tabs on one store refine two single-tab sessions.  Whatever
    the interleaving of two tabs, of the same user or of two users, each
    tab's state is reachable by [Sync.step] from the snapshot, the tabs
    share one store, and each tab shows only its own user's rows ("only
    accessible by you"), although both write the same table. *)
Theorem tabs_refine u v s0 a b :
  rtc tstep (tabs_init u v s0) (a, b) ->
  reachable u s0 a /\ reachable v s0 b /\ store a = store b /\
  all_owned u (bookmarks (ui a)) /\ all_owned v (bookmarks (ui b)).
Proof.
  intros Hr. destruct (tabs_reachable _ _ _ _ _ Hr) as (Ha & Hb & Hs).
  split_and!; try done.
  - rewrite <- (reachable_uid _ _ _ Ha). by destruct (reachable_owned_view _ _ _ Ha).
  - rewrite <- (reachable_uid _ _ _ Hb). by destruct (reachable_owned_view _ _ _ Hb).
Qed.

(** C21: The "Real-time Sync" card's promise.  When one tab of a user has
    an insert pending and the store accepts it, the user's other tab, if
    its channel has joined and no change was lost, shows the new row once
    its channel has delivered, with its list equal to the user's rows of
    the store. *)
Theorem realtime_sync_promise u s0 a b req i ts :
  rtc tstep (tabs_init u u s0) (a, b) ->
  subscribed b = true -> missed b = false ->
  add_pending a = Some req -> ~ In i (row_ids (store a)) -> clock_ok (store a) ts ->
  In (mkFeatureCard "Real-time Sync"
        "Add a bookmark in one tab, see it immediately in all others.") feature_cards /\
  exists b', rtc tstep (a, b) (own_add a req i ts, b') /\ inbox b' = [] /\
    In (row_of req i ts) (bookmarks (ui b')) /\ bookmarks (ui b') = select u (store b').
Proof.
  intros Hr Hsub Hm Hp Hfresh Hclock. split; [right; left; done|].
  pose proof (t_left _ _ (l_add a b req i ts Hp Hfresh Hclock)) as H1.
  assert (rtc tstep (tabs_init u u s0) (own_add a req i ts, seen_insert (row_of req i ts) b)) as Hr1
    by (etrans; [exact Hr|by apply rtc_once]).
  destruct (tabs_reachable _ _ _ _ _ Hr) as (Ha & Hb & Hs).
  assert (missed (seen_insert (row_of req i ts) b) = false) as Hm1
    by (unfold seen_insert; by rewrite publish_missed_subscribed).
  destruct (drain_tab _ _ _ _ _ false Hr1 Hm1) as (b' & Hr' & Hnil & Hst & _ & _ & Hbm).
  exists b'. split_and!; [by eapply rtc_l|done| |done].
  rewrite Hbm, Hst, seen_insert_store, select_insert.
  unfold owned, row_of. simpl. rewrite (add_pending_owner _ _ _ _ Ha Hp), String.eqb_refl.
  by left.
Qed.

(** C26: Two tabs of a user delete the same row (spec, section 5: each
    of two commands on one key reaches the idempotent outcome).  Both
    deletes are answered; the second finds no row and is a silent
    success.  Once both channels have delivered, neither tab has a delete
    pending or shows an alert, both show the same list, equal to the
    user's rows of the store, and the row is gone from it. *)
Theorem concurrent_deletes u s0 a b i :
  rtc tstep (tabs_init u u s0) (a, b) ->
  subscribed a = true -> subscribed b = true -> missed a = false -> missed b = false ->
  del_pending a = [i] -> del_pending b = [i] ->
  exists a' b', rtc tstep (a, b) (a', b') /\
    del_pending a' = [] /\ del_pending b' = [] /\
    effects a' = effects a /\ effects b' = effects b /\
    inbox a' = [] /\ inbox b' = [] /\
    bookmarks (ui a') = select u (store a') /\ bookmarks (ui b') = bookmarks (ui a') /\
    ~ In i (ids (bookmarks (ui a'))).
Proof.
  intros Hr Hsa Hsb Hma Hmb Hda Hdb.
  destruct (tabs_reachable _ _ _ _ _ Hr) as (Ha & Hb & _).
  destruct (own_delete_fields a i) as (Hua1 & Hsa1 & Hda1 & Hea1 & Hma1).
  destruct (seen_delete_fields (uid a) i b) as (Hub1 & Hsb1 & Hdb1 & Heb1 & Hmb1).
  set (a1 := own_delete a [] i []) in *. set (b1 := seen_delete (uid a) i b) in *.
  destruct (own_delete_fields b1 i) as (Hub2 & Hsb2 & Hdb2 & Heb2 & Hmb2).
  destruct (seen_delete_fields (uid b1) i a1) as (Hua2 & Hsa2 & Hda2 & Hea2 & Hma2).
  set (b2 := own_delete b1 [] i []) in *. set (a2 := seen_delete (uid b1) i a1) in *.
  assert (tstep (a, b) (a1, b1)) as H1 by (by apply t_left, l_delete).
  assert (tstep (a1, b1) (a2, b2)) as H2 by (apply t_right, l_delete; by rewrite Hdb1).
  assert (rtc tstep (tabs_init u u s0) (a2, b2)) as Hr2
    by (etrans; [exact Hr|eapply rtc_l; [exact H1|by apply rtc_once]]).
  assert (missed a2 = false) as Hm2a by (rewrite Hma2, Hma1; congruence).
  destruct (drain_tab _ _ _ _ _ true Hr2 Hm2a) as (a' & Hra & Hia & Hsta & Hda' & Hea' & Hbma).
  assert (rtc tstep (tabs_init u u s0) (a', b2)) as Hr3 by (by etrans).
  assert (missed b2 = false) as Hm2b by (rewrite Hmb2, Hmb1; congruence).
  destruct (drain_tab _ _ _ _ _ false Hr3 Hm2b) as (b' & Hrb & Hib & Hstb & Hdb' & Heb' & Hbmb).
  destruct (tabs_reachable _ _ _ _ _ Hr2) as (_ & _ & Hs2).
  cbn iota in Hra, Hbma, Hsta, Hda', Hea', Hrb, Hbmb, Hstb, Hdb', Heb'.
  exists a', b'. split_and!.
  - eapply rtc_l; [exact H1|]. eapply rtc_l; [exact H2|]. by etrans.
  - by rewrite Hda', Hda2.
  - by rewrite Hdb', Hdb2.
  - by rewrite Hea', Hea2, Hea1.
  - by rewrite Heb', Heb2, Heb1.
  - exact Hia.
  - exact Hib.
  - exact Hbma.
  - by rewrite Hbmb, Hbma, Hstb, Hsta, Hs2.
  - rewrite Hbma, Hsta. unfold a2. rewrite seen_delete_store, Hub1, (reachable_uid _ _ _ Hb).
    rewrite select_delete_own, in_ids_iff. intros (c & Hc & Hin).
    by apply (in_delete c i) in Hin as [_ Hne].
Qed.

End Tabs.

(** ** Concrete runs over [Sync.store0] (Google, of [u1]) *)

Import Samples.

Definition join_tab (s : @Sys ListStore) : @Sys ListStore :=
  mkSys (uid s) (ui s) (store s) true (inbox s) (add_pending s) (del_pending s)
        (effects s) (missed s).

Definition type_and_submit (s : @Sys ListStore) : @Sys ListStore :=
  let s1 := set_ui (setUrl "https://bing.com" (ui s)) s in
  let s2 := set_ui (setTitle "Bing" (ui s1)) s1 in
  set_add (snd (handleAdd_start (uid s2) (ui s2))) (set_ui (fst (handleAdd_start (uid s2) (ui s2))) s2).

Definition click_delete (i : string) (s : @Sys ListStore) : @Sys ListStore :=
  set_del (del_pending s ++ [i]) s.

(** Both tabs join their channels. *)
Definition tabs_joined (u v : string) : @Sys ListStore * @Sys ListStore :=
  (join_tab (sys_init u store0), join_tab (sys_init v store0)).

Local Ltac quiet_left_step c := eapply rtc_l; [apply t_left, l_quiet; split; [c|reflexivity]|].
Local Ltac quiet_right_step c := eapply rtc_l; [apply t_right, l_quiet; split; [c|reflexivity]|].

Lemma tabs_joined_run u v : rtc tstep (tabs_init u v store0) (tabs_joined u v).
Proof.
  quiet_left_step ltac:(by apply step_subscribe).
  quiet_right_step ltac:(by apply step_subscribe). apply rtc_refl.
Qed.

Lemma tabs_refine_witness :
  rtc tstep (tabs_init "u1" "u2" store0) (tabs_joined "u1" "u2") /\
  reachable "u1" store0 (tabs_joined "u1" "u2").1 /\ reachable "u2" store0 (tabs_joined "u1" "u2").2 /\
  store (tabs_joined "u1" "u2").1 = store (tabs_joined "u1" "u2").2 /\
  all_owned "u1" (bookmarks (ui (tabs_joined "u1" "u2").1)) /\
  all_owned "u2" (bookmarks (ui (tabs_joined "u1" "u2").2)).
Proof. split; [apply tabs_joined_run|]. apply (tabs_refine "u1" "u2" store0), tabs_joined_run. Defined.

(** Tab A types Bing and submits it. *)
Definition tabs_submitted : @Sys ListStore * @Sys ListStore :=
  (type_and_submit (tabs_joined "u1" "u1").1, (tabs_joined "u1" "u1").2).

Lemma tabs_submitted_run : rtc tstep (tabs_init "u1" "u1" store0) tabs_submitted.
Proof.
  etrans; [apply tabs_joined_run|].
  quiet_left_step ltac:(apply (step_type_url _ "https://bing.com")).
  quiet_left_step ltac:(apply (step_type_title _ "Bing")).
  quiet_left_step ltac:(by apply step_submit). apply rtc_refl.
Qed.

Local Ltac premise := vm_compute; first [intuition congruence | repeat constructor].

Definition bing_request : InsertRequest := mkInsertRequest "https://bing.com" "Bing" "u1".

Lemma realtime_sync_promise_witness :
  subscribed tabs_submitted.2 = true /\ missed tabs_submitted.2 = false /\
  add_pending tabs_submitted.1 = Some bing_request /\
  ~ In "2" (row_ids (store tabs_submitted.1)) /\
  clock_ok (store tabs_submitted.1) "2024-05-01T10:05:00Z" /\
  In (mkFeatureCard "Real-time Sync"
        "Add a bookmark in one tab, see it immediately in all others.") feature_cards /\
  exists b', rtc tstep tabs_submitted
               (own_add tabs_submitted.1 bing_request "2" "2024-05-01T10:05:00Z", b') /\
    inbox b' = [] /\ In (row_of bing_request "2" "2024-05-01T10:05:00Z") (bookmarks (ui b')) /\
    bookmarks (ui b') = select "u1" (store b').
Proof.
  assert (add_pending tabs_submitted.1 = Some bing_request) as Hp by reflexivity.
  assert (~ In "2" (row_ids (store tabs_submitted.1))) as Hf by premise.
  assert (clock_ok (store tabs_submitted.1) "2024-05-01T10:05:00Z") as Hc by premise.
  do 2 (split; [reflexivity|]). split; [exact Hp|]. split; [exact Hf|]. split; [exact Hc|].
  apply (realtime_sync_promise "u1" store0 tabs_submitted.1 tabs_submitted.2);
    first [exact tabs_submitted_run|reflexivity|assumption].
Defined.

(** Both tabs click delete on Google. *)
Definition tabs_deleting : @Sys ListStore * @Sys ListStore :=
  (click_delete "1" (tabs_joined "u1" "u1").1, click_delete "1" (tabs_joined "u1" "u1").2).

Lemma tabs_deleting_run : rtc tstep (tabs_init "u1" "u1" store0) tabs_deleting.
Proof.
  etrans; [apply tabs_joined_run|].
  quiet_left_step ltac:(apply step_click_delete; vm_compute; auto).
  quiet_right_step ltac:(apply step_click_delete; vm_compute; auto). apply rtc_refl.
Qed.

Lemma concurrent_deletes_witness :
  subscribed tabs_deleting.1 = true /\ subscribed tabs_deleting.2 = true /\
  missed tabs_deleting.1 = false /\ missed tabs_deleting.2 = false /\
  del_pending tabs_deleting.1 = ["1"] /\ del_pending tabs_deleting.2 = ["1"] /\
  exists a' b', rtc tstep tabs_deleting (a', b') /\
    del_pending a' = [] /\ del_pending b' = [] /\
    effects a' = effects tabs_deleting.1 /\ effects b' = effects tabs_deleting.2 /\
    inbox a' = [] /\ inbox b' = [] /\
    bookmarks (ui a') = select "u1" (store a') /\ bookmarks (ui b') = bookmarks (ui a') /\
    ~ In "1" (ids (bookmarks (ui a'))).
Proof.
  do 6 (split; [reflexivity|]).
  apply (concurrent_deletes "u1" store0 tabs_deleting.1 tabs_deleting.2);
    first [exact tabs_deleting_run|reflexivity].
Defined.

End Tabs.
